(** * recommender-dashboard: the two validation scripts

    A shallow embedding of [validate_customer_profiling.py] and
    [validate_metrics.py].  The scripts talk to PostgreSQL through psycopg2,
    print a report and, for one of them, set the process exit status.

    - [Runtime]: what the Python code relies on (exceptions, [try]/[except]/
      [finally], true division, [print], the psycopg2 connection), as a small
      state-and-error monad over an event log;
    - [ValidateCustomerProfiling], [ValidateMetrics]: the functions of the two
      scripts, statement by statement;
    - [Sql]: the meaning of the SQL texts, over in-memory tables;
    - then the properties of the derived metrics, of the SQL relations and of
      whole runs.

    Numbers: Python [int] is [Z]; [Decimal] and [float] values are exact
    rationals [Q] (rounding is not modelled). *)

From Stdlib Require Import ZArith QArith Qminmax List String Bool Lia.
From Stdlib Require Import Sorted Permutation.
Import ListNotations.
Open Scope Z_scope.

(* ===================================================================== *)
(** ** Rows returned by the queries *)
(* ===================================================================== *)

(** [fetchone()] of the customer-metrics query:
    [(total_orders, total_customers, total_revenue, avg_order_value)]. *)
Definition customer_row : Type := Z * Z * Q * Q.

(** One row of the geographic query:
    [(customer_city, customer_count, orders, revenue)]. *)
Definition city_row : Type := string * Z * Z * Q.

(** [row[1]] and [row[3]] of a city row. *)
Definition city_customers (row : city_row) : Z :=
  let '(_, customers, _, _) := row in customers.

Definition city_revenue (row : city_row) : Q :=
  let '(_, _, _, revenue) := row in revenue.

(** The row of the collaborative query.  A column may be SQL NULL ([None]);
    the script reads every column as [x or 0]. *)
Record collab_row := {
  r_total_users : option Z;
  r_total_products : option Z;
  r_total_purchases : option Z;
  r_total_user_product_combinations : option Z;
  r_active_customer_pairs : option Z;
  r_avg_shared_products : option Q
}.

(** The SQL statements the scripts send. *)
Inductive query :=
| QCustomerMetrics
| QGeographic
| QTableCount (table : string)
| QCollaborative
| QHighValuePairs
| QCrossRegion.

(** The outside world of one run.  [connect_ok n] tells whether the [n]-th
    call of [psycopg2.connect] succeeds; every query either raises (with the
    server's message) or yields its rows; [file_writable] tells whether the
    JSON snapshot can be opened for writing. *)
Record environment := {
  connect_ok : nat -> bool;
  run_customer_metrics : string + customer_row;
  run_geographic : string + list city_row;
  run_table_count : string -> string + Z;
  run_collaborative : string + option collab_row;
  run_high_value_pairs : string + option Z;
  run_cross_region : string + option Z;
  file_writable : bool
}.

(* ===================================================================== *)
(** ** Runtime: exceptions, effects, the event log *)
(* ===================================================================== *)

Module Runtime.

(** The exceptions that can occur; all are subclasses of [Exception]. *)
Inductive exn :=
| OperationalError               (* psycopg2.connect *)
| DatabaseError (msg : string)   (* cursor.execute *)
| ZeroDivisionError
| OSError.                       (* open(..., 'w') *)

(** A value interpolated into a printed line. *)
Inductive pyval :=
| VInt (n : Z)
| VNum (q : Q)
| VStr (s : string)
| VExn (e : exn).

(** What a run does to the outside, in order. *)
Inductive event :=
| Connect (h : nat)              (* psycopg2.connect returned connection h *)
| ConnectFailed
| OpenCursor (h : nat)           (* conn.cursor() *)
| Execute (h : nat) (q : query)  (* cursor.execute(q) on connection h *)
| CloseCursor (h : nat)          (* cursor.close() *)
| Close (h : nat)                (* conn.close() *)
| Stdout (fmt : string) (args : list pyval)   (* print(f'...') *)
| Traceback                      (* traceback.print_exc() *)
| JsonDump.                      (* open(path, 'w') and json.dump *)

Record world := {
  attempts : nat;        (* calls of psycopg2.connect so far *)
  log : list event
}.

Definition initial_world : world := {| attempts := 0; log := [] |}.

Inductive outcome (A : Type) :=
| Ret (a : A)
| Raise (e : exn).
Arguments Ret {A} a.
Arguments Raise {A} e.

Definition M (A : Type) : Type := world -> outcome A * world.

Definition ret {A} (a : A) : M A := fun w => (Ret a, w).

Definition raise {A} (e : exn) : M A := fun w => (Raise e, w).

Definition bind {A B} (c : M A) (k : A -> M B) : M B :=
  fun w =>
    match c w with
    | (Ret a, w') => k a w'
    | (Raise e, w') => (Raise e, w')
    end.

(** [try: body  except Exception as e: handler e] *)
Definition try_except {A} (body : M A) (handler : exn -> M A) : M A :=
  fun w =>
    match body w with
    | (Ret a, w') => (Ret a, w')
    | (Raise e, w') => handler e w'
    end.

(** [try: body  finally: cleanup]: the cleanup runs on both exits, and an
    exception of the cleanup replaces the outcome of the body. *)
Definition try_finally {A} (body : M A) (cleanup : M unit) : M A :=
  fun w =>
    match body w with
    | (r, w') =>
        match cleanup w' with
        | (Ret _, w'') => (r, w'')
        | (Raise e, w'') => (Raise e, w'')
        end
    end.

Definition emit (e : event) : M unit :=
  fun w => (Ret tt, {| attempts := attempts w; log := log w ++ [e] |}).

Definition print (fmt : string) (args : list pyval) : M unit :=
  emit (Stdout fmt args).

(** [for x in xs: body x] *)
Fixpoint for_each {A} (xs : list A) (body : A -> M unit) : M unit :=
  match xs with
  | [] => ret tt
  | x :: rest => bind (body x) (fun _ => for_each rest body)
  end.

(** [for x in xs: acc = body acc x], for a loop that updates a variable. *)
Fixpoint for_fold {A S} (xs : list A) (acc : S) (body : S -> A -> M S) : M S :=
  match xs with
  | [] => ret acc
  | x :: rest => bind (body acc x) (fun acc' => for_fold rest acc' body)
  end.

(** [enumerate(xs, start)] *)
Fixpoint enumerate {A} (xs : list A) (start : Z) : list (Z * A) :=
  match xs with
  | [] => []
  | x :: rest => (start, x) :: enumerate rest (start + 1)
  end.

(** Python's [a / b]: raises [ZeroDivisionError] on a zero divisor. *)
Definition truediv (a b : Q) : exn + Q :=
  if Qeq_bool b 0 then inl ZeroDivisionError else inr (a / b)%Q.

(** [a < b] on decimals and floats. *)
Definition Qltb (a b : Q) : bool :=
  (Qnum a * QDen b <? Qnum b * QDen a)%Z.

Definition lift {A} (r : exn + A) : M A :=
  match r with
  | inl e => raise e
  | inr a => ret a
  end.

(** [psycopg2.connect(...)]: the connection handle is the index of the call. *)
Definition psycopg2_connect (env : environment) : M nat :=
  fun w =>
    let h := attempts w in
    if connect_ok env h
    then (Ret h, {| attempts := S h; log := log w ++ [Connect h] |})
    else (Raise OperationalError,
          {| attempts := S h; log := log w ++ [ConnectFailed] |}).

(** [cursor.execute(q)] followed by the fetch: the rows, or the error. *)
Definition execute {A} (h : nat) (q : query) (res : string + A) : M A :=
  bind (emit (Execute h q)) (fun _ =>
    match res with
    | inl msg => raise (DatabaseError msg)
    | inr rows => ret rows
    end).

(** The exit status of a script whose top level runs [c] and then leaves
    with [status]: an exception that reaches the top level ends the process
    with status 1. *)
Definition exit_status {A} (status : A -> Z) (r : outcome A) : Z :=
  match r with
  | Ret a => status a
  | Raise _ => 1
  end.

(** [sum(...)] over integers and over decimals. *)
Definition sumZ (l : list Z) : Z := fold_right Z.add 0 l.
Definition sumQ (l : list Q) : Q := fold_right Qplus 0%Q l.

(** A [dict] with string keys, in insertion order. *)
Definition dict (V : Type) : Type := list (string * V).

Fixpoint dict_set {V} (d : dict V) (k : string) (v : V) : dict V :=
  match d with
  | [] => [(k, v)]
  | (k', v') :: rest =>
      if String.eqb k k' then (k, v) :: rest else (k', v') :: dict_set rest k v
  end.

Fixpoint dict_get {V} (d : dict V) (k : string) (default : V) : V :=
  match d with
  | [] => default
  | (k', v') :: rest => if String.eqb k k' then v' else dict_get rest k default
  end.

End Runtime.

Import Runtime.

Declare Scope py_scope.
Delimit Scope py_scope with py.
Notation "x <- c ;; k" := (bind c (fun x => k))
  (at level 61, c at next level, right associativity) : py_scope.
Notation "c ;; k" := (bind c (fun _ => k))
  (at level 61, right associativity) : py_scope.
Open Scope py_scope.
Open Scope string_scope.
Open Scope Z_scope.

(* ===================================================================== *)
(** ** validate_customer_profiling.py *)
(* ===================================================================== *)

Module ValidateCustomerProfiling.

(** The dictionary [validate_customer_profiling] returns. *)
Record customer_metrics := {
  total_customers : Z;
  total_revenue : Q;
  avg_order_value : Q;
  avg_lifetime_value : Q
}.

(** The dictionary [compare_with_frontend] returns (the fixed list of
    frontend issues is left out). *)
Record validation_results := {
  real_metrics : customer_metrics;
  real_cities : list city_row
}.

(** [get_db_connection()]: the exception of [psycopg2.connect] is not
    caught here. *)
Definition get_db_connection (env : environment) : M nat :=
  psycopg2_connect env.

(** The format strings of the lines that carry derived values. *)
Definition avg_lifetime_value_line : string :=
  "  Avg Lifetime Value: PKR {:,.0f}".
Definition orders_per_customer_line : string :=
  "  Orders per Customer: {:.1f}".
Definition city_line : string :=
  "  {:2d}. {:<15}: {:4d} customers ({:4.1f}%), PKR {:,.0f}".

(** Line 52: [result[2] / result[1] if result[1] > 0 else 0]. *)
Definition avg_lifetime_value_of (result : customer_row) : exn + Q :=
  let '(_, r1, r2, _) := result in
  if 0 <? r1 then truediv r2 (inject_Z r1) else inr 0%Q.

(** Line 56: [result[0] / result[1]], inside the f-string. *)
Definition orders_per_customer_of (result : customer_row) : exn + Q :=
  let '(r0, r1, _, _) := result in
  truediv (inject_Z r0) (inject_Z r1).

Definition validate_customer_profiling (env : environment)
  : M customer_metrics :=
  print "VALIDATING CUSTOMER PROFILING METRICS" [] ;;
  print "============================================================" [] ;;
  conn <- get_db_connection env ;;
  emit (OpenCursor conn) ;;
  result <- execute conn QCustomerMetrics (run_customer_metrics env) ;;
  let '(r0, r1, r2, r3) := result in
  print "CUSTOMER METRICS (30 days):" [] ;;
  print "  Total Orders: {:,}" [VInt r0] ;;
  print "  Total Customers: {:,}" [VInt r1] ;;
  print "  Total Revenue: PKR {:,.0f}" [VNum r2] ;;
  print "  Avg Order Value: PKR {:,.0f}" [VNum r3] ;;
  print "" [] ;;
  avg_lifetime_value <- lift (avg_lifetime_value_of result) ;;
  print "DERIVED METRICS:" [] ;;
  print avg_lifetime_value_line [VNum avg_lifetime_value] ;;
  orders_per_customer <- lift (orders_per_customer_of result) ;;
  print orders_per_customer_line [VNum orders_per_customer] ;;
  print "" [] ;;
  emit (CloseCursor conn) ;;
  emit (Close conn) ;;
  ret {| total_customers := r1;
         total_revenue := r2;
         avg_order_value := r3;
         avg_lifetime_value := avg_lifetime_value |}.

(** Line 101: [(customers / total_customers) * 100]. *)
Definition percentage_of (customers total_customers : Z) : exn + Q :=
  match truediv (inject_Z customers) (inject_Z total_customers) with
  | inl e => inl e
  | inr q => inr (q * 100)%Q
  end.

Definition validate_geographic_distribution (env : environment)
  : M (list city_row) :=
  print "VALIDATING GEOGRAPHIC DISTRIBUTION" [] ;;
  print "============================================================" [] ;;
  conn <- get_db_connection env ;;
  emit (OpenCursor conn) ;;
  results <- execute conn QGeographic (run_geographic env) ;;
  print "TOP 10 CITIES BY CUSTOMER COUNT:" [] ;;
  let total_customers := sumZ (map city_customers results) in
  let total_revenue := sumQ (map city_revenue results) in
  for_each (enumerate results 1) (fun '(i, row) =>
    let '(city, customers, orders, revenue) := row in
    percentage <- lift (percentage_of customers total_customers) ;;
    print city_line
          [VInt i; VStr city; VInt customers; VNum percentage; VNum revenue]) ;;
  print "" [] ;;
  print "SUMMARY:" [] ;;
  print "  Total Cities: {}" [VInt (Z.of_nat (List.length results))] ;;
  print "  Total Customers (top 10): {:,}" [VInt total_customers] ;;
  print "  Total Revenue (top 10): PKR {:,.0f}" [VNum total_revenue] ;;
  print "" [] ;;
  emit (CloseCursor conn) ;;
  emit (Close conn) ;;
  ret results.

(** The hard-coded frontend distribution. *)
Definition frontend_cities : list (string * Z) :=
  [("Karachi", 35); ("Lahore", 25); ("Islamabad", 15); ("Peshawar", 10);
   ("Others", 15)].

Definition compare_with_frontend (env : environment) : M validation_results :=
  print "COMPARING REAL DATA WITH FRONTEND DISPLAY" [] ;;
  print "============================================================" [] ;;
  real_metrics <- validate_customer_profiling env ;;
  real_cities <- validate_geographic_distribution env ;;
  print "FRONTEND MOCK DATA ISSUES FOUND:" [] ;;
  print "" [] ;;
  print "FRONTEND MOCK DISTRIBUTION:" [] ;;
  for_each frontend_cities (fun '(city, percentage) =>
    print "  {:<12}: {:3.0f}% (MOCK DATA)" [VStr city; VInt percentage]) ;;
  print "" [] ;;
  print "REAL DATABASE DISTRIBUTION:" [] ;;
  let total_real_customers := sumZ (map city_customers real_cities) in
  for_each (enumerate (firstn 5 real_cities) 1) (fun '(i, city_data) =>
    let '(city, customers, orders, revenue) := city_data in
    percentage <- lift (percentage_of customers total_real_customers) ;;
    print "  {}. {:<12}: {:3.1f}% ({} customers - REAL DATA)"
          [VInt i; VStr city; VNum percentage; VInt customers]) ;;
  print "" [] ;;
  print "KEY DIFFERENCES:" [] ;;
  print "  Frontend shows Karachi as #1 (35%) - Real data shows Lahore as #1" [] ;;
  print "  Frontend shows Islamabad as #3 - Real data shows Rawalpindi/Faisalabad" [] ;;
  print "  Frontend uses fixed percentages - Real data varies significantly" [] ;;
  print "  Frontend shows Peshawar - Real data shows Sialkot, Jhang City, Okara" [] ;;
  ret {| real_metrics := real_metrics; real_cities := real_cities |}.

(** [with open(...) as f: json.dump(...)] *)
Definition save_results (env : environment) (r : validation_results) : M unit :=
  if file_writable env then emit JsonDump else raise OSError.

Definition main (env : environment) : M unit :=
  print "CUSTOMER PROFILING & GEOGRAPHIC DISTRIBUTION VALIDATION" [] ;;
  print "================================================================================" [] ;;
  print "" [] ;;
  try_except
    (validation_results <- compare_with_frontend env ;;
     print "" [] ;;
     print "VALIDATION COMPLETE" [] ;;
     print "" [] ;;
     print "RECOMMENDATIONS:" [] ;;
     print "  1. Update frontend to use real geographic data from database" [] ;;
     print "  2. Replace mock percentages with actual customer distribution" [] ;;
     print "  3. Add API endpoint for geographic distribution metrics" [] ;;
     print "  4. Update city rankings to reflect real customer data" [] ;;
     print "  5. Add revenue data per city for business insights" [] ;;
     save_results env validation_results ;;
     print "" [] ;;
     print "Results saved to: customer_profiling_validation.json" [])
    (fun e =>
     print "Validation failed: {}" [VExn e] ;;
     emit Traceback).

(** [if __name__ == '__main__': main()]: the script ends with status 0 when
    [main] returns, whatever it returned. *)
Definition script (env : environment) : Z * world :=
  let (r, w) := main env initial_world in
  (exit_status (fun _ : unit => 0) r, w).

End ValidateCustomerProfiling.

(* ===================================================================== *)
(** ** validate_metrics.py *)
(* ===================================================================== *)

Module ValidateMetrics.

(** The dictionary [validate_collaborative_metrics] returns. *)
Record metrics := {
  total_users : Z;
  total_products : Z;
  total_purchases : Z;
  total_recommendations : Z;
  active_customer_pairs : Z;
  avg_similarity_score : Q;
  algorithm_accuracy : Q;
  coverage : Q
}.

(** [get_db_connection()]: a failure of [psycopg2.connect] is caught,
    reported, and turned into [None]. *)
Definition get_db_connection (env : environment) : M (option nat) :=
  try_except
    (conn <- psycopg2_connect env ;;
     ret (Some conn))
    (fun e =>
     print "Database connection failed: {}" [VExn e] ;;
     ret None).

Definition required_tables : list string :=
  ["orders"; "order_items"; "customer_purchases";
   "product_pairs"; "product_statistics"; "customer_statistics"].

Definition validate_database_structure (env : environment) (conn : nat)
  : M (dict Z) :=
  print "VALIDATING DATABASE STRUCTURE" [] ;;
  print "==================================================" [] ;;
  emit (OpenCursor conn) ;;
  table_status <- for_fold required_tables [] (fun table_status table =>
    try_except
      (count <- execute conn (QTableCount table) (run_table_count env table) ;;
       let table_status := dict_set table_status table count in
       let status := if 0 <? count then "ok" else "empty" in
       print "   {} {}: {:,} rows" [VStr status; VStr table; VInt count] ;;
       ret table_status)
      (fun e =>
       let table_status := dict_set table_status table (-1) in
       print "   {}: {}" [VStr table; VExn e] ;;
       ret table_status)) ;;
  emit (CloseCursor conn) ;;
  ret table_status.

(** [int(x or 0)] and [float(x or 0)]. *)
Definition or_zero (x : option Z) : Z :=
  match x with Some v => v | None => 0 end.

Definition or_zeroQ (x : option Q) : Q :=
  match x with Some v => v | None => 0%Q end.

(** Line 135: [min(avg_shared / 10.0, 1.0) if avg_shared > 0 else 0.0]. *)
Definition similarity_score_of (avg_shared : Q) : Q :=
  if Qltb 0 avg_shared then Qmin (avg_shared / 10) 1 else 0%Q.

(** Line 136: [float((total_users * (total_users - 1)) / 2)
    if total_users > 1 else 1.0]. *)
Definition max_possible_pairs_of (total_users : Z) : Q :=
  if 1 <? total_users
  then (inject_Z (total_users * (total_users - 1)) / 2)%Q
  else 1%Q.

(** Line 137: [min(float(active_pairs) / max_possible_pairs, 1.0)
    if max_possible_pairs > 0 else 0.0]. *)
Definition recommendation_coverage_of (active_pairs : Z)
    (max_possible_pairs : Q) : exn + Q :=
  if Qltb 0 max_possible_pairs
  then match truediv (inject_Z active_pairs) max_possible_pairs with
       | inl e => inl e
       | inr q => inr (Qmin q 1)
       end
  else inr 0%Q.

Definition validate_collaborative_metrics (env : environment) (conn : nat)
  : M (option metrics) :=
  print "VALIDATING COLLABORATIVE METRICS" [] ;;
  print "==================================================" [] ;;
  emit (OpenCursor conn) ;;
  try_finally
    (try_except
       (print "   Testing API query..." [] ;;
        result <- execute conn QCollaborative (run_collaborative env) ;;
        match result with
        | Some row =>
            let total_users := or_zero (r_total_users row) in
            let total_products := or_zero (r_total_products row) in
            let total_purchases := or_zero (r_total_purchases row) in
            let total_combinations :=
              or_zero (r_total_user_product_combinations row) in
            let active_pairs := or_zero (r_active_customer_pairs row) in
            let avg_shared := or_zeroQ (r_avg_shared_products row) in
            print "   Query executed successfully" [] ;;
            print "   Total Users: {:,}" [VInt total_users] ;;
            print "   Total Products: {:,}" [VInt total_products] ;;
            print "   Total Purchases: {:,}" [VInt total_purchases] ;;
            print "   User-Product Combinations: {:,}" [VInt total_combinations] ;;
            print "   Active Customer Pairs: {:,}" [VInt active_pairs] ;;
            print "   Avg Shared Products: {:.2f}" [VNum avg_shared] ;;
            let similarity_score := similarity_score_of avg_shared in
            let max_possible_pairs := max_possible_pairs_of total_users in
            recommendation_coverage <-
              lift (recommendation_coverage_of active_pairs max_possible_pairs) ;;
            print "   DERIVED METRICS:" [] ;;
            print "   Similarity Score: {:.3f}" [VNum similarity_score] ;;
            print "   Recommendation Coverage: {:.3f}"
                  [VNum recommendation_coverage] ;;
            ret (Some {| total_users := total_users;
                         total_products := total_products;
                         total_purchases := total_purchases;
                         total_recommendations := total_combinations;
                         active_customer_pairs := active_pairs;
                         avg_similarity_score := similarity_score;
                         algorithm_accuracy := recommendation_coverage;
                         coverage := recommendation_coverage |})
        | None =>
            print "   No results returned" [] ;;
            ret None
        end)
       (fun e =>
        print "   Query failed: {}" [VExn e] ;;
        ret None))
    (emit (CloseCursor conn)).

Definition validate_high_value_pairs (env : environment) (conn : nat) : M Z :=
  print "VALIDATING HIGH-VALUE PRODUCT PAIRS" [] ;;
  print "==================================================" [] ;;
  emit (OpenCursor conn) ;;
  try_finally
    (try_except
       (result <- execute conn QHighValuePairs (run_high_value_pairs env) ;;
        let high_value_pairs := match result with Some c => c | None => 0 end in
        print "   High-value pairs (>5,000 PKR): {}" [VInt high_value_pairs] ;;
        ret high_value_pairs)
       (fun e =>
        print "   High-value pairs query failed: {}" [VExn e] ;;
        ret 0))
    (emit (CloseCursor conn)).

Definition validate_cross_region_products (env : environment) (conn : nat)
  : M Z :=
  print "VALIDATING CROSS-REGION OPPORTUNITIES" [] ;;
  print "==================================================" [] ;;
  emit (OpenCursor conn) ;;
  try_finally
    (try_except
       (result <- execute conn QCrossRegion (run_cross_region env) ;;
        let cross_region_count := match result with Some c => c | None => 0 end in
        print "   Cross-region products: {}" [VInt cross_region_count] ;;
        ret cross_region_count)
       (fun e =>
        print "   Cross-region query failed: {}" [VExn e] ;;
        ret 0))
    (emit (CloseCursor conn)).

(** [if c: body] with no [else]. *)
Definition when (c : bool) (body : M unit) : M unit :=
  if c then body else ret tt.

Definition main (env : environment) : M bool :=
  print "COLLABORATIVE FILTERING METRICS VALIDATION" [] ;;
  print "============================================================" [] ;;
  print "   Timestamp: {}" [] ;;
  conn <- get_db_connection env ;;
  match conn with
  | None =>
      print "Cannot proceed without database connection" [] ;;
      ret false
  | Some conn =>
      try_finally
        (try_except
           (table_status <- validate_database_structure env conn ;;
            let orders_count := dict_get table_status "orders" 0 in
            let order_items_count := dict_get table_status "order_items" 0 in
            when (orders_count <? 100)
              (print "WARNING: Only {:,} orders found" [VInt orders_count] ;;
               print "   Consider loading more sample data for better metrics" []) ;;
            metrics <- validate_collaborative_metrics env conn ;;
            high_value_pairs <- validate_high_value_pairs env conn ;;
            cross_region_products <- validate_cross_region_products env conn ;;
            print "VALIDATION SUMMARY" [] ;;
            print "==================================================" [] ;;
            match metrics with
            | Some m =>
                print "Collaborative metrics calculation: PASSED" [] ;;
                print "   - Total Users: {:,}" [VInt (total_users m)] ;;
                print "   - Customer Connections: {:,}"
                      [VInt (active_customer_pairs m)] ;;
                print "   - Pattern Strength: {:.1%}"
                      [VNum (avg_similarity_score m)] ;;
                print "   - Recommendation Coverage: {:.1%}"
                      [VNum (algorithm_accuracy m)]
            | None =>
                print "Collaborative metrics calculation: FAILED" []
            end ;;
            print "High-value product pairs: {} found" [VInt high_value_pairs] ;;
            print "Cross-region opportunities: {} found"
                  [VInt cross_region_products] ;;
            print "RECOMMENDATIONS" [] ;;
            print "==================================================" [] ;;
            when (match metrics with
                  | Some m => active_customer_pairs m <? 100
                  | None => false
                  end)
              (print "Consider running more marketing campaigns to increase customer connections" []) ;;
            when (high_value_pairs <? 50)
              (print "Focus on premium product bundles to increase high-value pairs" []) ;;
            when (cross_region_products <? 20)
              (print "Expand product distribution to more regions for cross-selling opportunities" []) ;;
            print "Validation completed successfully!" [] ;;
            ret true)
           (fun e =>
            print "Validation failed: {}" [VExn e] ;;
            ret false))
        (emit (Close conn))
  end.

(** [success = main(); sys.exit(0 if success else 1)] *)
Definition script (env : environment) : Z * world :=
  let (r, w) := main env initial_world in
  (exit_status (fun success : bool => if success then 0 else 1) r, w).

End ValidateMetrics.

(* ===================================================================== *)
(** ** The SQL of the queries, over in-memory tables *)
(* ===================================================================== *)

Module Sql.

(** The columns of [orders] and [order_items] the queries read.  Customer
    and product identifiers are integers and may be NULL; dates are day
    numbers. *)
Record order := {
  id : Z;
  unified_customer_id : option Z;
  order_date : Z;
  total_price : Q;
  customer_city : option string
}.

Record order_item := {
  order_id : Z;
  product_id : option Z
}.

(** [o.order_date >= CURRENT_DATE - INTERVAL 'days days'] *)
Definition in_window (current_date days : Z) (o : order) : bool :=
  current_date - days <=? order_date o.

(** The values of a column that are not NULL. *)
Definition non_null {A} (l : list (option A)) : list A :=
  flat_map (fun x => match x with Some v => [v] | None => [] end) l.

(** [COUNT(DISTINCT col)]: NULLs are not counted. *)
Definition count_distinct (l : list (option Z)) : Z :=
  Z.of_nat (List.length (nodup Z.eq_dec (non_null l))).

(** [SUM(col)] and [AVG(col)] are NULL over no rows. *)
Definition sql_sum (l : list Z) : option Z :=
  match l with
  | [] => None
  | _ => Some (sumZ l)
  end.

Definition sql_avg (l : list Q) : option Q :=
  match l with
  | [] => None
  | _ => Some (sumQ l / inject_Z (Z.of_nat (List.length l)))%Q
  end.

Definition coalesce {A} (x : option A) (default : A) : A :=
  match x with
  | Some v => v
  | None => default
  end.

Definition customer_product : Type := option Z * option Z.

Definition customer_product_eq_dec (a b : customer_product) : {a = b} + {a <> b}.
Proof. repeat decide equality. Defined.

Definition pair_eq_dec (a b : Z * Z) : {a = b} + {a <> b}.
Proof. repeat decide equality. Defined.

Definition triple_eq_dec (a b : Z * Z * Z) : {a = b} + {a <> b}.
Proof. repeat decide equality. Defined.

(** CTE [customer_products]: rows
    [((unified_customer_id, product_id), purchase_count)], one per group. *)
Definition customer_products (current_date : Z) (orders : list order)
    (order_items : list order_item) : list (customer_product * Z) :=
  let joined :=
    flat_map (fun o =>
      if in_window current_date 30 o
      then map (fun oi => (unified_customer_id o, product_id oi))
               (filter (fun oi => id o =? order_id oi) order_items)
      else []) orders in
  map (fun k => (k, Z.of_nat (count_occ customer_product_eq_dec joined k)))
      (nodup customer_product_eq_dec joined).

(** The self-join of [customer_products] on
    [cp1.product_id = cp2.product_id AND
     cp1.unified_customer_id < cp2.unified_customer_id]:
    rows [((customer1, customer2), product_id)].  A comparison with NULL is
    not true, so such rows do not join. *)
Definition shared_rows (cps : list (customer_product * Z)) : list (Z * Z * Z) :=
  flat_map (fun cp1 =>
    flat_map (fun cp2 =>
      match fst cp1, fst cp2 with
      | (Some c1, Some p1), (Some c2, Some p2) =>
          if (p1 =? p2) && (c1 <? c2) then [((c1, c2), p1)] else []
      | _, _ => []
      end) cps) cps.

(** The products of the joined rows of one group [(customer1, customer2)],
    without repetition. *)
Definition shared_products_of (rows : list (Z * Z * Z)) (g : Z * Z) : list Z :=
  nodup Z.eq_dec
    (map snd (filter (fun r => if pair_eq_dec (fst r) g then true else false)
                     rows)).

(** CTE [customer_pairs]: [SELECT DISTINCT customer1, customer2,
    COUNT(DISTINCT product_id) ... GROUP BY customer1, customer2
    HAVING COUNT(DISTINCT product_id) >= 2]. *)
Definition customer_pairs (cps : list (customer_product * Z))
  : list (Z * Z * Z) :=
  let rows := shared_rows cps in
  let groups := nodup pair_eq_dec (map fst rows) in
  let counted :=
    map (fun g => (g, Z.of_nat (List.length (shared_products_of rows g))))
        groups in
  nodup triple_eq_dec (filter (fun r => 2 <=? snd r) counted).

(** The collaborative query: [stats CROSS JOIN pair_stats], one row. *)
Definition collaborative_query (current_date : Z) (orders : list order)
    (order_items : list order_item) : collab_row :=
  let cps := customer_products current_date orders order_items in
  let pairs := customer_pairs cps in
  {| r_total_users := Some (count_distinct (map (fun r => fst (fst r)) cps));
     r_total_products := Some (count_distinct (map (fun r => snd (fst r)) cps));
     r_total_purchases := sql_sum (map snd cps);
     r_total_user_product_combinations := Some (Z.of_nat (List.length cps));
     r_active_customer_pairs :=
       Some (coalesce (Some (Z.of_nat (List.length pairs))) 0);
     r_avg_shared_products :=
       Some (coalesce (sql_avg (map (fun r => inject_Z (snd r)) pairs)) 0%Q) |}.

(** The customer-metrics query. *)
Definition customer_metrics_query (current_date : Z) (orders : list order)
  : customer_row :=
  let rows := filter (in_window current_date 30) orders in
  let prices := map total_price rows in
  (Z.of_nat (List.length (nodup Z.eq_dec (map id rows))),
   count_distinct (map unified_customer_id rows),
   sumQ prices,
   coalesce (sql_avg prices) 0%Q).

(** [o.customer_city IS NOT NULL AND o.customer_city != ''] *)
Definition has_city (o : order) : bool :=
  match customer_city o with
  | Some c => negb (String.eqb c "")
  | None => false
  end.

Definition in_city (c : string) (o : order) : bool :=
  match customer_city o with
  | Some c' => String.eqb c c'
  | None => false
  end.

(** The geographic query before [ORDER BY] and [LIMIT]: one row per city. *)
Definition city_groups (current_date : Z) (orders : list order)
  : list city_row :=
  let rows :=
    filter (fun o => in_window current_date 30 o && has_city o) orders in
  let cities := nodup string_dec (non_null (map customer_city rows)) in
  map (fun c =>
         let g := filter (in_city c) rows in
         (c, count_distinct (map unified_customer_id g),
          Z.of_nat (List.length g), sumQ (map total_price g)))
      cities.

(** [ORDER BY customer_count DESC], keeping the order of ties. *)
Fixpoint insert_desc (r : city_row) (l : list city_row) : list city_row :=
  match l with
  | [] => [r]
  | x :: rest =>
      if city_customers r <? city_customers x
      then x :: insert_desc r rest
      else r :: l
  end.

Definition order_by_customer_count_desc (l : list city_row) : list city_row :=
  fold_right insert_desc [] l.

(** The geographic query: [... ORDER BY customer_count DESC LIMIT 10]. *)
Definition geographic_query (current_date : Z) (orders : list order)
  : list city_row :=
  firstn 10 (order_by_customer_count_desc (city_groups current_date orders)).

End Sql.

(* ===================================================================== *)
(** ** Reading a run: what was printed, what happened on the connections *)
(* ===================================================================== *)

(** The world after the events [evs], with no further connection attempt. *)
Definition extend (w : world) (evs : list event) : world :=
  {| attempts := attempts w; log := log w ++ evs |}.

(** [c] always ends, adds events to the log without connecting, and its
    outcome and events satisfy [Post]. *)
Definition spec {A} (c : M A) (Post : outcome A -> list event -> Prop) : Prop :=
  forall w, exists r evs, c w = (r, extend w evs) /\ Post r evs.

(** The events on database connections, in order: everything but the
    report. *)
Definition is_connection_event (e : event) : bool :=
  match e with
  | Stdout _ _ | Traceback | JsonDump => false
  | _ => true
  end.

Definition connection_events (evs : list event) : list event :=
  filter is_connection_event evs.

(** [c] always returns, with a value in [R], and what it does on the
    connections is [trace], whatever the queries answer. *)
Definition returning {A} (c : M A) (R : A -> Prop) (trace : list event) : Prop :=
  spec c (fun r evs =>
    (exists a, r = Ret a /\ R a) /\ connection_events evs = trace).

(** The values printed on the lines of format [fmt] that carry, as their
    [k]-th argument, a number. *)
Definition printed (fmt : string) (k : nat) (evs : list event) : list Q :=
  flat_map (fun e =>
    match e with
    | Stdout f args =>
        if String.eqb f fmt
        then match nth_error args k with
             | Some (VNum q) => [q]
             | _ => []
             end
        else []
    | _ => []
    end) evs.

(** The percentages of the city lines of the geographic report. *)
Definition printed_percentages (evs : list event) : list Q :=
  printed ValidateCustomerProfiling.city_line 3 evs.

(** Line 101 in exact arithmetic: [customers / total_customers * 100]. *)
Definition percentage_exact (customers total_customers : Z) : Q :=
  (inject_Z customers / inject_Z total_customers * 100)%Q.

(** The line the geographic report prints for the [i]-th city. *)
Definition city_report_line (total_customers : Z) (ir : Z * city_row) : event :=
  let '(i, (city, customers, orders, revenue)) := ir in
  Stdout ValidateCustomerProfiling.city_line
    [VInt i; VStr city; VInt customers;
     VNum (percentage_exact customers total_customers); VNum revenue].

(** Customer [c] has a row for product [p] in [customer_products]. *)
Definition purchased (cps : list (Sql.customer_product * Z)) (c p : Z) : Prop :=
  exists purchase_count, In ((Some c, Some p), purchase_count) cps.

(** The events of the connections of a run of [validate_metrics.py] whose
    connection, [h], succeeds. *)
Definition metrics_connection_trace_from (h : nat) : list event :=
  ([Connect h; OpenCursor h]
   ++ map (fun t => Execute h (QTableCount t)) ValidateMetrics.required_tables
   ++ [CloseCursor h;
       OpenCursor h; Execute h QCollaborative; CloseCursor h;
       OpenCursor h; Execute h QHighValuePairs; CloseCursor h;
       OpenCursor h; Execute h QCrossRegion; CloseCursor h;
       Close h])%list.

Definition metrics_connection_trace : list event :=
  metrics_connection_trace_from 0.

(** The events of the connections of a run of
    [validate_customer_profiling.py] in which nothing fails, the first
    connection being [h]. *)
Definition profiling_connection_trace_from (h : nat) : list event :=
  [Connect h; OpenCursor h; Execute h QCustomerMetrics;
   CloseCursor h; Close h;
   Connect (S h); OpenCursor (S h); Execute (S h) QGeographic;
   CloseCursor (S h); Close (S h)].

Definition profiling_connection_trace : list event :=
  profiling_connection_trace_from 0.

(** The number of connections a log opens. *)
Definition connections_opened (evs : list event) : nat :=
  List.length (filter (fun e => match e with Connect _ => true | _ => false end)
                      evs).

(* ===================================================================== *)
(** ** Sample databases and environments *)
(* ===================================================================== *)

Module Samples.

Definition mk_order (i : Z) (customer : option Z) (price : Q)
    (city : option string) : Sql.order :=
  {| Sql.id := i; Sql.unified_customer_id := customer; Sql.order_date := 100;
     Sql.total_price := price; Sql.customer_city := city |}.

Definition mk_item (o : Z) (p : Z) : Sql.order_item :=
  {| Sql.order_id := o; Sql.product_id := Some p |}.

(** Customer 1 bought for 100 and 200, customer 2 for 300; both bought
    products 7 and 8. *)
Definition orders : list Sql.order :=
  [mk_order 1 (Some 1) 100 (Some "Lahore");
   mk_order 2 (Some 1) 200 (Some "Lahore");
   mk_order 3 (Some 2) 300 (Some "Karachi")].

Definition order_items : list Sql.order_item :=
  [mk_item 1 7; mk_item 2 8; mk_item 3 7; mk_item 3 8; mk_item 3 8].

(** Orders whose [unified_customer_id] is NULL. *)
Definition orders_without_customer : list Sql.order :=
  [mk_order 1 None 100 (Some "Lahore"); mk_order 2 None 400 (Some "Lahore")].

Definition today : Z := 110.

(** A server that holds [os] and [items] and answers every query. *)
Definition env_of (os : list Sql.order) (items : list Sql.order_item)
  : environment :=
  {| connect_ok := fun _ => true;
     run_customer_metrics := inr (Sql.customer_metrics_query today os);
     run_geographic := inr (Sql.geographic_query today os);
     run_table_count := fun t =>
       if String.eqb t "orders" then inr (Z.of_nat (List.length os))
       else if String.eqb t "order_items" then inr (Z.of_nat (List.length items))
       else inr 0;
     run_collaborative := inr (Some (Sql.collaborative_query today os items));
     run_high_value_pairs := inr (Some 0);
     run_cross_region := inr (Some 0);
     file_writable := true |}.

Definition env_sample : environment := env_of orders order_items.

(** No order in the window. *)
Definition env_no_orders : environment := env_of [] [].

Definition env_without_customer : environment :=
  env_of orders_without_customer [].

(** The data store cannot be reached. *)
Definition env_unreachable : environment :=
  {| connect_ok := fun _ => false;
     run_customer_metrics := inl "connection is closed";
     run_geographic := inl "connection is closed";
     run_table_count := fun _ => inl "connection is closed";
     run_collaborative := inl "connection is closed";
     run_high_value_pairs := inl "connection is closed";
     run_cross_region := inl "connection is closed";
     file_writable := true |}.

(** The server is reachable and has no table. *)
Definition env_missing_tables : environment :=
  {| connect_ok := fun _ => true;
     run_customer_metrics := inl "relation orders does not exist";
     run_geographic := inl "relation orders does not exist";
     run_table_count := fun _ => inl "relation does not exist";
     run_collaborative := inl "relation orders does not exist";
     run_high_value_pairs := inl "relation order_items does not exist";
     run_cross_region := inl "relation order_items does not exist";
     file_writable := true |}.

End Samples.

(* ===================================================================== *)
(** ** What a run never does *)
(* ===================================================================== *)

(** Every event [c] adds to the log passes [ok], whether [c] returns or
    raises. *)
Definition emits_only {A} (c : M A) (ok : event -> bool) : Prop :=
  forall w, exists evs,
    log (snd (c w)) = (log w ++ evs)%list /\ forallb ok evs = true.

(** The events an operation may produce: anything but the snapshot and
    the traceback, which belong to [main]. *)
Definition operation_event (e : event) : bool :=
  match e with
  | JsonDump | Traceback => false
  | _ => true
  end.

(** The outcome of [validate_customer_profiling] read off the answers of
    the outside world. *)
Definition customer_profiling_outcome (env : environment) (h : nat)
  : outcome ValidateCustomerProfiling.customer_metrics :=
  if connect_ok env h
  then match run_customer_metrics env with
       | inl msg => Raise (DatabaseError msg)
       | inr (r0, r1, r2, r3) =>
           if r1 =? 0 then Raise ZeroDivisionError
           else Ret {| ValidateCustomerProfiling.total_customers := r1;
                       ValidateCustomerProfiling.total_revenue := r2;
                       ValidateCustomerProfiling.avg_order_value := r3;
                       ValidateCustomerProfiling.avg_lifetime_value :=
                         if 0 <? r1 then (r2 / inject_Z r1)%Q else 0%Q |}
       end
  else Raise OperationalError.

(** The outcome of [validate_geographic_distribution], likewise. *)
Definition geographic_distribution_outcome (env : environment) (h : nat)
  : outcome (list city_row) :=
  if connect_ok env h
  then match run_geographic env with
       | inl msg => Raise (DatabaseError msg)
       | inr [] => Ret []
       | inr rows =>
           if sumZ (map city_customers rows) =? 0 then Raise ZeroDivisionError
           else Ret rows
       end
  else Raise OperationalError.

(** What [validate_database_structure] records for a table: its row count,
    or -1 when the count query fails. *)
Definition recorded_count (env : environment) (table : string) : Z :=
  match run_table_count env table with
  | inr count => count
  | inl _ => -1
  end.

(** What [validate_high_value_pairs] and [validate_cross_region_products]
    return: the count of the row, or 0 when there is no row or the query
    fails. *)
Definition reported_count (answer : string + option Z) : Z :=
  match answer with
  | inr (Some count) => count
  | _ => 0
  end.

(** What [validate_collaborative_metrics] returns: the metrics of the row,
    or [None] when there is no row or the query fails. *)
Definition collaborative_result (env : environment)
  : option ValidateMetrics.metrics :=
  match run_collaborative env with
  | inr (Some row) =>
      let total_users := ValidateMetrics.or_zero (r_total_users row) in
      let active_pairs :=
        ValidateMetrics.or_zero (r_active_customer_pairs row) in
      let recommendation_coverage :=
        Qmin (inject_Z active_pairs
              / ValidateMetrics.max_possible_pairs_of total_users) 1 in
      Some {| ValidateMetrics.total_users := total_users;
              ValidateMetrics.total_products :=
                ValidateMetrics.or_zero (r_total_products row);
              ValidateMetrics.total_purchases :=
                ValidateMetrics.or_zero (r_total_purchases row);
              ValidateMetrics.total_recommendations :=
                ValidateMetrics.or_zero
                  (r_total_user_product_combinations row);
              ValidateMetrics.active_customer_pairs := active_pairs;
              ValidateMetrics.avg_similarity_score :=
                ValidateMetrics.similarity_score_of
                  (ValidateMetrics.or_zeroQ (r_avg_shared_products row));
              ValidateMetrics.algorithm_accuracy := recommendation_coverage;
              ValidateMetrics.coverage := recommendation_coverage |}
  | _ => None
  end.

(** The lines [main] of [validate_metrics.py] prints itself, between and
    after the operations (lines 290-292 and 302-330). *)
Definition metrics_warning (orders_count : Z) : list event :=
  if orders_count <? 100
  then [Stdout "WARNING: Only {:,} orders found" [VInt orders_count];
        Stdout "   Consider loading more sample data for better metrics" []]
  else [].

Definition metrics_summary (metrics : option ValidateMetrics.metrics)
    (high_value_pairs cross_region_products : Z) : list event :=
  ([Stdout "VALIDATION SUMMARY" [];
    Stdout "==================================================" []]
   ++ match metrics with
      | Some m =>
          [Stdout "Collaborative metrics calculation: PASSED" [];
           Stdout "   - Total Users: {:,}" [VInt (ValidateMetrics.total_users m)];
           Stdout "   - Customer Connections: {:,}"
                  [VInt (ValidateMetrics.active_customer_pairs m)];
           Stdout "   - Pattern Strength: {:.1%}"
                  [VNum (ValidateMetrics.avg_similarity_score m)];
           Stdout "   - Recommendation Coverage: {:.1%}"
                  [VNum (ValidateMetrics.algorithm_accuracy m)]]
      | None => [Stdout "Collaborative metrics calculation: FAILED" []]
      end
   ++ [Stdout "High-value product pairs: {} found" [VInt high_value_pairs];
       Stdout "Cross-region opportunities: {} found"
              [VInt cross_region_products];
       Stdout "RECOMMENDATIONS" [];
       Stdout "==================================================" []]
   ++ (if match metrics with
          | Some m => ValidateMetrics.active_customer_pairs m <? 100
          | None => false
          end
       then [Stdout "Consider running more marketing campaigns to increase customer connections" []]
       else [])
   ++ (if high_value_pairs <? 50
       then [Stdout "Focus on premium product bundles to increase high-value pairs" []]
       else [])
   ++ (if cross_region_products <? 20
       then [Stdout "Expand product distribution to more regions for cross-selling opportunities" []]
       else [])
   ++ [Stdout "Validation completed successfully!" []])%list.

(** The formats of the verdict and advice lines of [main]. *)
Definition metrics_main_formats : list string :=
  ["WARNING: Only {:,} orders found";
   "Collaborative metrics calculation: PASSED";
   "Collaborative metrics calculation: FAILED";
   "Consider running more marketing campaigns to increase customer connections";
   "Focus on premium product bundles to increase high-value pairs";
   "Expand product distribution to more regions for cross-selling opportunities";
   "Validation completed successfully!";
   "Validation failed: {}"].

(** An event that is none of the verdict and advice lines of [main]. *)
Definition operation_line (e : event) : bool :=
  match e with
  | Stdout fmt _ => negb (existsb (String.eqb fmt) metrics_main_formats)
  | _ => true
  end.

(** [row[0]] and [row[2]] of a city row. *)
Definition city_name (row : city_row) : string :=
  let '(city, _, _, _) := row in city.

Definition city_orders (row : city_row) : Z :=
  let '(_, _, orders, _) := row in orders.

(** [a] is ranked before [b] by [ORDER BY customer_count DESC]. *)
Definition ranked_before (a b : city_row) : Prop :=
  city_customers b <= city_customers a.

(** The orders the geographic query reads: in the window, with a city. *)
Definition located (current_date : Z) (o : Sql.order) : bool :=
  Sql.in_window current_date 30 o && Sql.has_city o.

(** The rows of [orders JOIN order_items] in the 30-day window, before the
    grouping of [customer_products]. *)
Definition purchase_rows (current_date : Z) (orders : list Sql.order)
    (order_items : list Sql.order_item) : list Sql.customer_product :=
  flat_map (fun o =>
    if Sql.in_window current_date 30 o
    then map (fun oi => (Sql.unified_customer_id o, Sql.product_id oi))
             (filter (fun oi => Sql.id o =? Sql.order_id oi) order_items)
    else []) orders.

(* ===================================================================== *)
(** ** validate_metrics.py when [conn.cursor()] can fail *)
(* ===================================================================== *)

(** In [validate_metrics.py] every operation calls [conn.cursor()] before
    its [try] block (lines 37, 64, 168, 219), so an exception of that call
    leaves the operation and reaches the handler of [main].  This module
    repeats the operations and [main] of [ValidateMetrics] with
    [conn.cursor()] as a parameter; with a cursor that always opens they
    are the functions of [ValidateMetrics]. *)
Module ValidateMetricsCursor.

Import ValidateMetrics.

(** The operations that call [conn.cursor()]. *)
Inductive operation :=
| Structure
| Collaborative
| HighValuePairs
| CrossRegion.

Definition operation_eqb (a b : operation) : bool :=
  match a, b with
  | Structure, Structure
  | Collaborative, Collaborative
  | HighValuePairs, HighValuePairs
  | CrossRegion, CrossRegion => true
  | _, _ => false
  end.

(** At most one call of [conn.cursor()] fails in a run (the first failure
    ends the run): [Some (op, e)] makes the call of operation [op] raise
    [e]. *)
Definition fault : Type := option (operation * exn).

(** [conn.cursor()] under a fault. *)
Definition faulty_cursor (f : fault) (op : operation) (conn : nat) : M unit :=
  match f with
  | Some (op', e) =>
      if operation_eqb op op' then raise e else emit (OpenCursor conn)
  | None => emit (OpenCursor conn)
  end.

Section WithCursor.

Variable cursor : operation -> nat -> M unit.

Definition validate_database_structure (env : environment) (conn : nat)
  : M (dict Z) :=
  print "VALIDATING DATABASE STRUCTURE" [] ;;
  print "==================================================" [] ;;
  cursor Structure conn ;;
  table_status <- for_fold required_tables [] (fun table_status table =>
    try_except
      (count <- execute conn (QTableCount table) (run_table_count env table) ;;
       let table_status := dict_set table_status table count in
       let status := if 0 <? count then "ok" else "empty" in
       print "   {} {}: {:,} rows" [VStr status; VStr table; VInt count] ;;
       ret table_status)
      (fun e =>
       let table_status := dict_set table_status table (-1) in
       print "   {}: {}" [VStr table; VExn e] ;;
       ret table_status)) ;;
  emit (CloseCursor conn) ;;
  ret table_status.

Definition validate_collaborative_metrics (env : environment) (conn : nat)
  : M (option metrics) :=
  print "VALIDATING COLLABORATIVE METRICS" [] ;;
  print "==================================================" [] ;;
  cursor Collaborative conn ;;
  try_finally
    (try_except
       (print "   Testing API query..." [] ;;
        result <- execute conn QCollaborative (run_collaborative env) ;;
        match result with
        | Some row =>
            let total_users := or_zero (r_total_users row) in
            let total_products := or_zero (r_total_products row) in
            let total_purchases := or_zero (r_total_purchases row) in
            let total_combinations :=
              or_zero (r_total_user_product_combinations row) in
            let active_pairs := or_zero (r_active_customer_pairs row) in
            let avg_shared := or_zeroQ (r_avg_shared_products row) in
            print "   Query executed successfully" [] ;;
            print "   Total Users: {:,}" [VInt total_users] ;;
            print "   Total Products: {:,}" [VInt total_products] ;;
            print "   Total Purchases: {:,}" [VInt total_purchases] ;;
            print "   User-Product Combinations: {:,}" [VInt total_combinations] ;;
            print "   Active Customer Pairs: {:,}" [VInt active_pairs] ;;
            print "   Avg Shared Products: {:.2f}" [VNum avg_shared] ;;
            let similarity_score := similarity_score_of avg_shared in
            let max_possible_pairs := max_possible_pairs_of total_users in
            recommendation_coverage <-
              lift (recommendation_coverage_of active_pairs max_possible_pairs) ;;
            print "   DERIVED METRICS:" [] ;;
            print "   Similarity Score: {:.3f}" [VNum similarity_score] ;;
            print "   Recommendation Coverage: {:.3f}"
                  [VNum recommendation_coverage] ;;
            ret (Some {| total_users := total_users;
                         total_products := total_products;
                         total_purchases := total_purchases;
                         total_recommendations := total_combinations;
                         active_customer_pairs := active_pairs;
                         avg_similarity_score := similarity_score;
                         algorithm_accuracy := recommendation_coverage;
                         coverage := recommendation_coverage |})
        | None =>
            print "   No results returned" [] ;;
            ret None
        end)
       (fun e =>
        print "   Query failed: {}" [VExn e] ;;
        ret None))
    (emit (CloseCursor conn)).

Definition validate_high_value_pairs (env : environment) (conn : nat) : M Z :=
  print "VALIDATING HIGH-VALUE PRODUCT PAIRS" [] ;;
  print "==================================================" [] ;;
  cursor HighValuePairs conn ;;
  try_finally
    (try_except
       (result <- execute conn QHighValuePairs (run_high_value_pairs env) ;;
        let high_value_pairs := match result with Some c => c | None => 0 end in
        print "   High-value pairs (>5,000 PKR): {}" [VInt high_value_pairs] ;;
        ret high_value_pairs)
       (fun e =>
        print "   High-value pairs query failed: {}" [VExn e] ;;
        ret 0))
    (emit (CloseCursor conn)).

Definition validate_cross_region_products (env : environment) (conn : nat)
  : M Z :=
  print "VALIDATING CROSS-REGION OPPORTUNITIES" [] ;;
  print "==================================================" [] ;;
  cursor CrossRegion conn ;;
  try_finally
    (try_except
       (result <- execute conn QCrossRegion (run_cross_region env) ;;
        let cross_region_count := match result with Some c => c | None => 0 end in
        print "   Cross-region products: {}" [VInt cross_region_count] ;;
        ret cross_region_count)
       (fun e =>
        print "   Cross-region query failed: {}" [VExn e] ;;
        ret 0))
    (emit (CloseCursor conn)).

Definition main (env : environment) : M bool :=
  print "COLLABORATIVE FILTERING METRICS VALIDATION" [] ;;
  print "============================================================" [] ;;
  print "   Timestamp: {}" [] ;;
  conn <- get_db_connection env ;;
  match conn with
  | None =>
      print "Cannot proceed without database connection" [] ;;
      ret false
  | Some conn =>
      try_finally
        (try_except
           (table_status <- validate_database_structure env conn ;;
            let orders_count := dict_get table_status "orders" 0 in
            let order_items_count := dict_get table_status "order_items" 0 in
            when (orders_count <? 100)
              (print "WARNING: Only {:,} orders found" [VInt orders_count] ;;
               print "   Consider loading more sample data for better metrics" []) ;;
            metrics <- validate_collaborative_metrics env conn ;;
            high_value_pairs <- validate_high_value_pairs env conn ;;
            cross_region_products <- validate_cross_region_products env conn ;;
            print "VALIDATION SUMMARY" [] ;;
            print "==================================================" [] ;;
            match metrics with
            | Some m =>
                print "Collaborative metrics calculation: PASSED" [] ;;
                print "   - Total Users: {:,}" [VInt (total_users m)] ;;
                print "   - Customer Connections: {:,}"
                      [VInt (active_customer_pairs m)] ;;
                print "   - Pattern Strength: {:.1%}"
                      [VNum (avg_similarity_score m)] ;;
                print "   - Recommendation Coverage: {:.1%}"
                      [VNum (algorithm_accuracy m)]
            | None =>
                print "Collaborative metrics calculation: FAILED" []
            end ;;
            print "High-value product pairs: {} found" [VInt high_value_pairs] ;;
            print "Cross-region opportunities: {} found"
                  [VInt cross_region_products] ;;
            print "RECOMMENDATIONS" [] ;;
            print "==================================================" [] ;;
            when (match metrics with
                  | Some m => active_customer_pairs m <? 100
                  | None => false
                  end)
              (print "Consider running more marketing campaigns to increase customer connections" []) ;;
            when (high_value_pairs <? 50)
              (print "Focus on premium product bundles to increase high-value pairs" []) ;;
            when (cross_region_products <? 20)
              (print "Expand product distribution to more regions for cross-selling opportunities" []) ;;
            print "Validation completed successfully!" [] ;;
            ret true)
           (fun e =>
            print "Validation failed: {}" [VExn e] ;;
            ret false))
        (emit (Close conn))
  end.

End WithCursor.

(** [success = main(); sys.exit(0 if success else 1)] *)
Definition script (f : fault) (env : environment) : Z * world :=
  let (r, w) := main (faulty_cursor f) env initial_world in
  (exit_status (fun success : bool => if success then 0 else 1) r, w).

End ValidateMetricsCursor.

(** The events on the connection before [conn.cursor()] fails in
    operation [op] of a connected run of [validate_metrics.py]. *)
Definition trace_before_fault (op : ValidateMetricsCursor.operation)
  : list event :=
  let structure :=
    ([OpenCursor 0%nat]
     ++ map (fun t => Execute 0%nat (QTableCount t))
            ValidateMetrics.required_tables
     ++ [CloseCursor 0%nat])%list in
  let collaborative :=
    [OpenCursor 0%nat; Execute 0%nat QCollaborative; CloseCursor 0%nat] in
  let high_value :=
    [OpenCursor 0%nat; Execute 0%nat QHighValuePairs; CloseCursor 0%nat] in
  (Connect 0%nat ::
   match op with
   | ValidateMetricsCursor.Structure => []
   | ValidateMetricsCursor.Collaborative => structure
   | ValidateMetricsCursor.HighValuePairs => structure ++ collaborative
   | ValidateMetricsCursor.CrossRegion =>
       structure ++ collaborative ++ high_value
   end)%list.


(* ===================================================================== *)
(** ** Arithmetic of the runtime *)
(* ===================================================================== *)

Lemma Qltb_lt (a b : Q) : Qltb a b = true <-> (a < b)%Q.
Proof. unfold Qltb, Qlt. apply Z.ltb_lt. Qed.

Lemma Qltb_ge (a b : Q) : Qltb a b = false <-> (b <= a)%Q.
Proof. unfold Qltb, Qle. apply Z.ltb_ge. Qed.

Lemma truediv_nonzero (a b : Q) :
  ~ (b == 0)%Q -> truediv a b = inr (a / b)%Q.
Proof.
  intros Hb. unfold truediv.
  destruct (Qeq_bool b 0) eqn:E; [|reflexivity].
  apply Qeq_bool_eq in E. contradiction.
Qed.

Lemma truediv_zero (a b : Q) :
  (b == 0)%Q -> truediv a b = inl ZeroDivisionError.
Proof.
  intros Hb. unfold truediv.
  apply Qeq_eq_bool in Hb. rewrite Hb. reflexivity.
Qed.

Lemma inject_Z_nonzero (z : Z) : z <> 0 -> ~ (inject_Z z == 0)%Q.
Proof. unfold Qeq. simpl. lia. Qed.

Lemma truediv_Z (a : Q) (z : Z) :
  z <> 0 -> truediv a (inject_Z z) = inr (a / inject_Z z)%Q.
Proof. intros Hz. apply truediv_nonzero, inject_Z_nonzero, Hz. Qed.

(* ===================================================================== *)
(** ** Derived metrics of the collaborative report *)
(* ===================================================================== *)

Lemma Qdiv_nonneg (a b : Q) : (0 <= a)%Q -> (0 < b)%Q -> (0 <= a / b)%Q.
Proof.
  intros Ha Hb. apply Qle_shift_div_l; [exact Hb|].
  rewrite Qmult_0_l. exact Ha.
Qed.

Lemma Qmin_unit (q : Q) : (0 <= q)%Q -> (0 <= Qmin q 1 <= 1)%Q.
Proof.
  intros Hq. split.
  - apply Q.min_glb; [exact Hq | discriminate].
  - apply Q.le_min_r.
Qed.

Lemma similarity_score_unit (avg_shared : Q) :
  (0 <= ValidateMetrics.similarity_score_of avg_shared <= 1)%Q.
Proof.
  unfold ValidateMetrics.similarity_score_of.
  destruct (Qltb 0 avg_shared) eqn:E.
  - apply Qltb_lt in E. apply Qmin_unit, Qdiv_nonneg.
    + apply Qlt_le_weak, E.
    + reflexivity.
  - split; discriminate.
Qed.

Lemma even_product (n : Z) : n * (n - 1) = 2 * (n * (n - 1) / 2).
Proof.
  apply Z.div_exact; [lia|].
  destruct (Z.Even_or_Odd n) as [[k Hk]|[k Hk]]; subst n.
  - replace (2 * k * (2 * k - 1)) with ((k * (2 * k - 1)) * 2) by ring.
    apply Z.mod_mul. lia.
  - replace ((2 * k + 1) * (2 * k + 1 - 1)) with (((2 * k + 1) * k) * 2) by ring.
    apply Z.mod_mul. lia.
Qed.

Lemma max_possible_pairs_positive (total_users : Z) :
  (0 < ValidateMetrics.max_possible_pairs_of total_users)%Q.
Proof.
  unfold ValidateMetrics.max_possible_pairs_of.
  destruct (1 <? total_users) eqn:E; [|reflexivity].
  apply Z.ltb_lt in E.
  apply Qlt_shift_div_l; [reflexivity|].
  rewrite Qmult_0_l. unfold Qlt. simpl. nia.
Qed.

Lemma max_possible_pairs_integer (total_users : Z) :
  1 < total_users ->
  (ValidateMetrics.max_possible_pairs_of total_users
   == inject_Z (total_users * (total_users - 1) / 2))%Q.
Proof.
  intros H. unfold ValidateMetrics.max_possible_pairs_of.
  apply Z.ltb_lt in H. rewrite H.
  rewrite (even_product total_users) at 1.
  rewrite inject_Z_mult. field.
Qed.

Lemma recommendation_coverage_divides (active_pairs total_users : Z) :
  ValidateMetrics.recommendation_coverage_of active_pairs
    (ValidateMetrics.max_possible_pairs_of total_users)
  = inr (Qmin (inject_Z active_pairs
               / ValidateMetrics.max_possible_pairs_of total_users) 1).
Proof.
  pose proof (max_possible_pairs_positive total_users) as Hpos.
  unfold ValidateMetrics.recommendation_coverage_of.
  apply Qltb_lt in Hpos as Hb. rewrite Hb.
  rewrite truediv_nonzero; [reflexivity|].
  intros Hz. rewrite Hz in Hpos. discriminate.
Qed.

(** C8.  [max_possible_pairs] is [total_users * (total_users - 1) / 2] when
    [total_users > 1] and the sentinel 1 otherwise; it is positive, so the
    division of [recommendation_coverage] is performed and does not raise. *)
Theorem max_possible_pairs_sentinel (total_users : Z) :
  0 <= total_users ->
  let max_possible_pairs := ValidateMetrics.max_possible_pairs_of total_users in
  (1 < total_users ->
     max_possible_pairs = (inject_Z (total_users * (total_users - 1)) / 2)%Q /\
     (max_possible_pairs == inject_Z (total_users * (total_users - 1) / 2))%Q) /\
  (total_users <= 1 -> max_possible_pairs = 1%Q) /\
  (0 < max_possible_pairs)%Q /\
  ~ (max_possible_pairs == 0)%Q /\
  forall active_pairs : Z,
    truediv (inject_Z active_pairs) max_possible_pairs
      = inr (inject_Z active_pairs / max_possible_pairs)%Q /\
    ValidateMetrics.recommendation_coverage_of active_pairs max_possible_pairs
      = inr (Qmin (inject_Z active_pairs / max_possible_pairs) 1).
Proof.
  intros _ mpp. subst mpp.
  pose proof (max_possible_pairs_positive total_users) as Hpos.
  assert (Hnz : ~ (ValidateMetrics.max_possible_pairs_of total_users == 0)%Q).
  { intros Hz. rewrite Hz in Hpos. discriminate. }
  repeat split.
  - unfold ValidateMetrics.max_possible_pairs_of.
    apply Z.ltb_lt in H. rewrite H. reflexivity.
  - apply max_possible_pairs_integer, H.
  - intros H. unfold ValidateMetrics.max_possible_pairs_of.
    apply Z.ltb_ge in H. rewrite H. reflexivity.
  - exact Hpos.
  - exact Hnz.
  - apply truediv_nonzero, Hnz.
  - apply recommendation_coverage_divides.
Qed.

Lemma max_possible_pairs_sentinel_witness :
  0 <= 4 /\
  (ValidateMetrics.max_possible_pairs_of 4 == 6)%Q /\
  ValidateMetrics.recommendation_coverage_of 3
    (ValidateMetrics.max_possible_pairs_of 4)
  = inr (Qmin (inject_Z 3 / ValidateMetrics.max_possible_pairs_of 4) 1).
Proof.
  assert (H : 0 <= 4) by lia.
  split; [exact H|].
  destruct (max_possible_pairs_sentinel 4 H) as [Hgt [_ [_ [_ Hdiv]]]].
  split.
  - apply Hgt. lia.
  - apply Hdiv.
Defined.

Lemma recommendation_coverage_unit (active_pairs total_users : Z) :
  0 <= active_pairs ->
  (0 <= Qmin (inject_Z active_pairs
              / ValidateMetrics.max_possible_pairs_of total_users) 1 <= 1)%Q.
Proof.
  intros Ha. apply Qmin_unit, Qdiv_nonneg.
  - unfold Qle. simpl. lia.
  - apply max_possible_pairs_positive.
Qed.

Lemma similarity_score_formula (avg_shared : Q) :
  (0 <= avg_shared)%Q ->
  ValidateMetrics.similarity_score_of avg_shared
  = if Qeq_bool avg_shared 0 then 0%Q else Qmin (avg_shared / 10) 1.
Proof.
  intros Hnn. unfold ValidateMetrics.similarity_score_of.
  destruct (Qeq_bool avg_shared 0) eqn:Ez.
  - apply Qeq_bool_eq in Ez.
    assert (E : Qltb 0 avg_shared = false).
    { apply Qltb_ge. rewrite Ez. discriminate. }
    rewrite E. reflexivity.
  - apply Qeq_bool_neq in Ez.
    assert (E : Qltb 0 avg_shared = true).
    { apply Qltb_lt. apply Qle_lteq in Hnn. destruct Hnn as [Hlt|Heq].
      - exact Hlt.
      - exfalso. apply Ez. symmetry. exact Heq. }
    rewrite E. reflexivity.
Qed.

(** Symbolic execution of straight-line code. *)
Ltac step :=
  unfold bind, print, emit, execute, try_except, try_finally, lift, ret,
    raise, ValidateMetrics.when; cbn.

(** C6.  On a row of non-negative counts, [validate_collaborative_metrics]
    returns metrics whose similarity score is
    [min(avg_shared_products / 10.0, 1.0)] (0 when the average is 0) and
    whose coverage is [min(active_customer_pairs / max_possible_pairs, 1.0)];
    both lie in [0, 1]. *)
Theorem derived_metrics_in_unit_interval
    (env : environment) (conn : nat) (w : world) (row : collab_row) :
  let avg_shared_products := ValidateMetrics.or_zeroQ (r_avg_shared_products row) in
  let total_users := ValidateMetrics.or_zero (r_total_users row) in
  let active_customer_pairs :=
    ValidateMetrics.or_zero (r_active_customer_pairs row) in
  run_collaborative env = inr (Some row) ->
  (0 <= avg_shared_products)%Q ->
  0 <= total_users ->
  0 <= active_customer_pairs ->
  exists m w',
    ValidateMetrics.validate_collaborative_metrics env conn w = (Ret (Some m), w') /\
    ValidateMetrics.avg_similarity_score m
      = (if Qeq_bool avg_shared_products 0 then 0%Q
         else Qmin (avg_shared_products / 10) 1) /\
    (0 <= ValidateMetrics.avg_similarity_score m <= 1)%Q /\
    ValidateMetrics.coverage m
      = Qmin (inject_Z active_customer_pairs
              / ValidateMetrics.max_possible_pairs_of total_users) 1 /\
    (0 <= ValidateMetrics.coverage m <= 1)%Q /\
    ValidateMetrics.algorithm_accuracy m = ValidateMetrics.coverage m.
Proof.
  intros avg tu ap Hrow Havg Htu Hap.
  unfold ValidateMetrics.validate_collaborative_metrics.
  step. rewrite Hrow. cbn.
  fold avg. fold tu. fold ap.
  rewrite recommendation_coverage_divides. cbn.
  eexists. eexists. split; [reflexivity|]. cbn.
  split; [apply similarity_score_formula, Havg|].
  split; [apply similarity_score_unit|].
  split; [reflexivity|].
  split; [apply recommendation_coverage_unit, Hap|reflexivity].
Qed.

Lemma derived_metrics_in_unit_interval_witness :
  exists m w',
    ValidateMetrics.validate_collaborative_metrics Samples.env_sample 0%nat
      initial_world = (Ret (Some m), w') /\
    (0 <= ValidateMetrics.avg_similarity_score m <= 1)%Q /\
    (0 <= ValidateMetrics.coverage m <= 1)%Q.
Proof.
  destruct (derived_metrics_in_unit_interval Samples.env_sample 0%nat
              initial_world
              (Sql.collaborative_query Samples.today Samples.orders
                 Samples.order_items))
    as (m & w' & Hrun & _ & Hs & _ & Hc & _).
  - reflexivity.
  - vm_compute. discriminate.
  - vm_compute. discriminate.
  - vm_compute. discriminate.
  - exists m, w'. split; [exact Hrun|]. split; [exact Hs | exact Hc].
Defined.

(* ===================================================================== *)
(** ** Customer metrics *)
(* ===================================================================== *)

Arguments truediv : simpl never.

Ltac reassoc := repeat rewrite <- app_assoc.

(** C7.  With the customer-metrics row [(total_orders, total_customers,
    total_revenue, avg_order_value)], line 52 computes
    [total_revenue / total_customers] when [total_customers > 0] and [0] when
    [total_customers = 0]; that value is the one printed as the average
    lifetime value and, when the function returns, the one in its result. *)
Theorem avg_lifetime_value_guarded
    (env : environment) (w : world)
    (total_orders total_customers : Z) (total_revenue avg_order_value : Q) :
  0 <= total_customers ->
  connect_ok env (attempts w) = true ->
  run_customer_metrics env
    = inr (total_orders, total_customers, total_revenue, avg_order_value) ->
  let result := (total_orders, total_customers, total_revenue, avg_order_value) in
  let run := ValidateCustomerProfiling.validate_customer_profiling env w in
  exists evs,
    log (snd run) = (log w ++ evs)%list /\
    (0 < total_customers ->
       ValidateCustomerProfiling.avg_lifetime_value_of result
         = inr (total_revenue / inject_Z total_customers)%Q /\
       printed ValidateCustomerProfiling.avg_lifetime_value_line 0 evs
         = [(total_revenue / inject_Z total_customers)%Q] /\
       exists m, fst run = Ret m /\
         ValidateCustomerProfiling.avg_lifetime_value m
           = (total_revenue / inject_Z total_customers)%Q) /\
    (total_customers = 0 ->
       ValidateCustomerProfiling.avg_lifetime_value_of result = inr 0%Q /\
       printed ValidateCustomerProfiling.avg_lifetime_value_line 0 evs = [0%Q]).
Proof.
  intros Hnn Hc Hq result run. subst result run.
  unfold ValidateCustomerProfiling.validate_customer_profiling,
    ValidateCustomerProfiling.get_db_connection, psycopg2_connect.
  step. rewrite Hc. cbn. rewrite Hq. cbn.
  unfold ValidateCustomerProfiling.avg_lifetime_value_of,
    ValidateCustomerProfiling.orders_per_customer_of.
  destruct (Z.eq_dec total_customers 0) as [Hz|Hz].
  - subst total_customers. cbn.
    rewrite truediv_zero by reflexivity. cbn.
    eexists. split; [reassoc; reflexivity|].
    split; [intros H; lia|]. intros _. split; reflexivity.
  - assert (Hpos : 0 < total_customers) by lia.
    apply Z.ltb_lt in Hpos as Hb. rewrite Hb.
    rewrite !truediv_Z by exact Hz. cbn.
    eexists. split; [reassoc; reflexivity|].
    split; [|intros H; lia]. intros _.
    split; [reflexivity|]. split; [reflexivity|].
    eexists. split; reflexivity.
Qed.

Lemma avg_lifetime_value_guarded_witness :
  exists evs,
    log (snd (ValidateCustomerProfiling.validate_customer_profiling
                Samples.env_sample initial_world)) = evs /\
    printed ValidateCustomerProfiling.avg_lifetime_value_line 0 evs
      = [(600 / 2)%Q].
Proof.
  destruct (avg_lifetime_value_guarded Samples.env_sample initial_world
              3 2 600 (600 # 3))
    as (evs & Hlog & Hpos & _).
  - lia.
  - reflexivity.
  - reflexivity.
  - exists evs. split; [exact Hlog|]. apply Hpos. lia.
Defined.

(** C1.  On the row of an empty window, [(0, 0, 0, 0)], the average lifetime
    value is computed as 0 and printed, and then the unguarded division of
    line 56 raises [ZeroDivisionError]: no orders-per-customer line is
    printed, the function does not return, and the connection is left open.
    The exception ends [compare_with_frontend]; [main] reports it. *)
Theorem orders_per_customer_zero_customers_raises :
  Sql.customer_metrics_query Samples.today [] = (0, 0, 0%Q, 0%Q) /\
  ValidateCustomerProfiling.avg_lifetime_value_of (0, 0, 0%Q, 0%Q) = inr 0%Q /\
  ValidateCustomerProfiling.orders_per_customer_of (0, 0, 0%Q, 0%Q)
    = inl ZeroDivisionError /\
  let run := ValidateCustomerProfiling.validate_customer_profiling
               Samples.env_no_orders initial_world in
  fst run = Raise ZeroDivisionError /\
  printed ValidateCustomerProfiling.avg_lifetime_value_line 0 (log (snd run))
    = [0%Q] /\
  printed ValidateCustomerProfiling.orders_per_customer_line 0 (log (snd run))
    = [] /\
  connection_events (log (snd run))
    = [Connect 0%nat; OpenCursor 0%nat; Execute 0%nat QCustomerMetrics] /\
  In (Stdout "Validation failed: {}" [VExn ZeroDivisionError])
     (log (snd (ValidateCustomerProfiling.script Samples.env_no_orders))).
Proof.
  repeat split; try reflexivity.
  vm_compute. tauto.
Qed.

(* ===================================================================== *)
(** ** Geographic distribution *)
(* ===================================================================== *)

Lemma for_each_emits {A} (f : A -> event) (body : A -> M unit) (xs : list A) :
  (forall x w, body x w = (Ret tt, extend w [f x])) ->
  forall w, for_each xs body w = (Ret tt, extend w (map f xs)).
Proof.
  intros Hbody. induction xs as [|x rest IH]; intros w.
  - unfold extend. cbn. rewrite app_nil_r. destruct w; reflexivity.
  - cbn. unfold bind. rewrite Hbody, IH.
    unfold extend. cbn. rewrite <- app_assoc. reflexivity.
Qed.

Lemma printed_app (fmt : string) (k : nat) (a b : list event) :
  printed fmt k (a ++ b) = (printed fmt k a ++ printed fmt k b)%list.
Proof. unfold printed. apply flat_map_app. Qed.

Lemma printed_city_lines (total : Z) (rows : list city_row) (start : Z) :
  printed_percentages (map (city_report_line total) (enumerate rows start))
  = map (fun row => percentage_exact (city_customers row) total) rows.
Proof.
  revert start. induction rows as [|[[[city customers] orders] revenue] rest IH];
    intros start.
  - reflexivity.
  - cbn [enumerate map]. unfold printed_percentages in *.
    change (map (city_report_line total) (enumerate rest (start + 1)))
      with ([] ++ map (city_report_line total) (enumerate rest (start + 1)))%list.
    rewrite app_comm_cons, printed_app, IH. reflexivity.
Qed.

Lemma sum_percentages (total : Z) (rows : list city_row) :
  (sumQ (map (fun row => percentage_exact (city_customers row) total) rows)
   == inject_Z (sumZ (map city_customers rows)) / inject_Z total * 100)%Q.
Proof.
  induction rows as [|row rest IH].
  - cbn. unfold Qdiv. rewrite !Qmult_0_l. reflexivity.
  - cbn [map sumQ sumZ fold_right].
    fold (sumQ (map (fun row => percentage_exact (city_customers row) total)
                    rest)).
    fold (sumZ (map city_customers rest)).
    rewrite IH. unfold percentage_exact. rewrite inject_Z_plus.
    unfold Qdiv. ring.
Qed.

Lemma percentages_total (rows : list city_row) :
  sumZ (map city_customers rows) <> 0 ->
  (sumQ (map (fun row => percentage_exact (city_customers row)
                           (sumZ (map city_customers rows))) rows)
   == 100)%Q.
Proof.
  intros Hnz. rewrite sum_percentages. field.
  apply inject_Z_nonzero, Hnz.
Qed.

Lemma percentage_of_nonzero (customers total : Z) :
  total <> 0 ->
  ValidateCustomerProfiling.percentage_of customers total
  = inr (percentage_exact customers total).
Proof.
  intros Hnz. unfold ValidateCustomerProfiling.percentage_of.
  rewrite truediv_Z by exact Hnz. reflexivity.
Qed.

(** C5, as the code has it.  When the customer counts of the returned rows
    have a positive total, [validate_geographic_distribution] returns the
    rows, prints for each city the percentage
    [customer_count / total * 100], total being the sum over the returned
    rows, and these percentages sum to 100. *)
Theorem city_percentages_sum_to_100
    (env : environment) (w : world) (results : list city_row) :
  connect_ok env (attempts w) = true ->
  run_geographic env = inr results ->
  0 < sumZ (map city_customers results) ->
  let total_customers := sumZ (map city_customers results) in
  let run := ValidateCustomerProfiling.validate_geographic_distribution env w in
  exists evs,
    fst run = Ret results /\
    log (snd run) = (log w ++ evs)%list /\
    printed_percentages evs
      = map (fun row => percentage_exact (city_customers row) total_customers)
            results /\
    (sumQ (printed_percentages evs) == 100)%Q.
Proof.
  intros Hc Hq Hpos total run. subst run.
  assert (Hnz : total <> 0) by (subst total; lia).
  unfold ValidateCustomerProfiling.validate_geographic_distribution,
    ValidateCustomerProfiling.get_db_connection, psycopg2_connect.
  step. rewrite Hc. cbn. rewrite Hq. cbn.
  fold total.
  rewrite (for_each_emits (city_report_line total)).
  2:{ intros [i [[[city customers] orders] revenue]] w0.
      rewrite percentage_of_nonzero by exact Hnz. reflexivity. }
  unfold extend. cbn.
  eexists. split; [reflexivity|]. split; [reassoc; reflexivity|].
  match goal with
  | |- printed_percentages ?e = ?m /\ _ =>
      assert (Hp : printed_percentages e = m)
  end.
  { unfold printed_percentages.
    rewrite !printed_app.
    fold (printed_percentages
            (map (city_report_line total) (enumerate results 1))).
    rewrite printed_city_lines. cbn. rewrite app_nil_r. reflexivity. }
  split; [exact Hp|]. rewrite Hp. subst total. apply percentages_total, Hnz.
Qed.

Lemma city_percentages_sum_to_100_witness :
  exists evs,
    fst (ValidateCustomerProfiling.validate_geographic_distribution
           Samples.env_sample initial_world)
      = Ret [("Lahore", 1, 2, 300%Q); ("Karachi", 1, 1, 300%Q)] /\
    printed_percentages evs = [(100 # 2)%Q; (100 # 2)%Q] /\
    (sumQ (printed_percentages evs) == 100)%Q.
Proof.
  destruct (city_percentages_sum_to_100 Samples.env_sample initial_world
              (Sql.geographic_query Samples.today Samples.orders))
    as (evs & Hret & _ & Hprinted & Hsum).
  - reflexivity.
  - reflexivity.
  - vm_compute. reflexivity.
  - exists evs. split; [exact Hret|]. split; [exact Hprinted | exact Hsum].
Defined.

(** C5 as stated fails on a non-empty result whose counts are all 0
    ([COUNT(DISTINCT unified_customer_id)] of a city whose orders carry no
    customer): the first percentage raises [ZeroDivisionError], and no
    percentage is printed. *)
Lemma city_percentages_zero_total_raises :
  let results :=
    Sql.geographic_query Samples.today Samples.orders_without_customer in
  let run := ValidateCustomerProfiling.validate_geographic_distribution
               Samples.env_without_customer initial_world in
  results <> [] /\
  map city_customers results = [0] /\
  run_geographic Samples.env_without_customer = inr results /\
  fst run = Raise ZeroDivisionError /\
  printed_percentages (log (snd run)) = [] /\
  ~ (sumQ (printed_percentages (log (snd run))) == 100)%Q.
Proof.
  cbv zeta. split; [vm_compute; discriminate|].
  split; [reflexivity|]. split; [reflexivity|].
  split; [reflexivity|]. split; [reflexivity|].
  vm_compute. discriminate.
Qed.

Lemma filter_none {A} (f : A -> bool) (l : list A) :
  (forall x, In x l -> f x = false) -> filter f l = [].
Proof.
  induction l as [|x rest IH]; intros H; [reflexivity|].
  cbn. rewrite (H x (or_introl eq_refl)).
  apply IH. intros y Hy. apply H. right. exact Hy.
Qed.

(** The geographic query has no row when no order of the window has a
    city. *)
Lemma geographic_query_no_rows (current_date : Z) (orders : list Sql.order) :
  (forall o, In o orders ->
     Sql.in_window current_date 30 o && Sql.has_city o = false) ->
  Sql.geographic_query current_date orders = [].
Proof.
  intros H. unfold Sql.geographic_query, Sql.city_groups.
  rewrite (filter_none _ orders H). reflexivity.
Qed.

(** C10.  When the geographic query returns no row,
    [validate_geographic_distribution] returns the empty list: the loop
    body, and with it the division by the (zero) total, is not run, so no
    percentage is printed and nothing is raised; the connection is used
    for the query and closed. *)
Theorem geographic_distribution_no_rows (env : environment) (w : world) :
  connect_ok env (attempts w) = true ->
  run_geographic env = inr [] ->
  let run := ValidateCustomerProfiling.validate_geographic_distribution env w in
  fst run = Ret [] /\
  exists evs,
    log (snd run) = (log w ++ evs)%list /\
    printed_percentages evs = [] /\
    connection_events evs
      = [Connect (attempts w); OpenCursor (attempts w);
         Execute (attempts w) QGeographic;
         CloseCursor (attempts w); Close (attempts w)].
Proof.
  intros Hc Hq run. subst run.
  unfold ValidateCustomerProfiling.validate_geographic_distribution,
    ValidateCustomerProfiling.get_db_connection, psycopg2_connect.
  step. rewrite Hc. cbn. rewrite Hq. cbn.
  split; [reflexivity|].
  eexists. split; [reassoc; reflexivity|].
  split; reflexivity.
Qed.

Lemma geographic_distribution_no_rows_witness :
  Sql.geographic_query Samples.today [] = [] /\
  fst (ValidateCustomerProfiling.validate_geographic_distribution
         Samples.env_no_orders initial_world) = Ret [].
Proof.
  split.
  - apply geographic_query_no_rows. intros o [].
  - apply (geographic_distribution_no_rows Samples.env_no_orders initial_world).
    + reflexivity.
    + reflexivity.
Defined.

(* ===================================================================== *)
(** ** The customer-pairs relation *)
(* ===================================================================== *)

Section CustomerPairs.

Variable cps : list (Sql.customer_product * Z).

Lemma shared_rows_spec (c1 c2 p : Z) :
  In ((c1, c2), p) (Sql.shared_rows cps) <->
  c1 < c2 /\ purchased cps c1 p /\ purchased cps c2 p.
Proof.
  unfold Sql.shared_rows, purchased. rewrite in_flat_map. split.
  - intros [[[x1 y1] k1] [H1 H]]. apply in_flat_map in H.
    destruct H as [[[x2 y2] k2] [H2 H]]. cbn in H.
    destruct x1 as [a1|], y1 as [q1|]; try contradiction;
      destruct x2 as [a2|], y2 as [q2|]; try contradiction.
    destruct (q1 =? q2) eqn:Eq, (a1 <? a2) eqn:Elt; cbn in H; try contradiction.
    destruct H as [H|[]]. inversion H; subst.
    apply Z.eqb_eq in Eq. apply Z.ltb_lt in Elt. subst q2.
    split; [exact Elt|]. split; eexists; eassumption.
  - intros [Hlt [[k1 H1] [k2 H2]]].
    exists ((Some c1, Some p), k1). split; [exact H1|].
    apply in_flat_map. exists ((Some c2, Some p), k2). split; [exact H2|].
    cbn. rewrite Z.eqb_refl. apply Z.ltb_lt in Hlt. rewrite Hlt.
    left. reflexivity.
Qed.

Lemma shared_products_spec (g : Z * Z) (p : Z) :
  In p (Sql.shared_products_of (Sql.shared_rows cps) g) <->
  In (g, p) (Sql.shared_rows cps).
Proof.
  unfold Sql.shared_products_of. rewrite nodup_In, in_map_iff. split.
  - intros [[g' p'] [Hp H]]. apply filter_In in H. destruct H as [H Hg].
    cbn in *. destruct (Sql.pair_eq_dec g' g); [|discriminate].
    subst. exact H.
  - intros H. exists (g, p). split; [reflexivity|].
    apply filter_In. split; [exact H|]. cbn.
    destruct (Sql.pair_eq_dec g g); [reflexivity|contradiction].
Qed.

Lemma keys_of_filter {K V} (f : K * V -> bool) (c : K -> V) (l : list K) :
  map fst (filter f (map (fun g => (g, c g)) l))
  = filter (fun g => f (g, c g)) l.
Proof.
  induction l as [|g rest IH]; [reflexivity|].
  cbn. destruct (f (g, c g)); cbn; rewrite IH; reflexivity.
Qed.

(** [SELECT DISTINCT] removes nothing: the groups are already distinct. *)
Lemma customer_pairs_eq :
  Sql.customer_pairs cps
  = filter (fun r => 2 <=? snd r)
      (map (fun g => (g, Z.of_nat (List.length
                           (Sql.shared_products_of (Sql.shared_rows cps) g))))
           (nodup Sql.pair_eq_dec (map fst (Sql.shared_rows cps)))).
Proof.
  unfold Sql.customer_pairs. apply nodup_fixed_point.
  apply (NoDup_map_inv fst). rewrite keys_of_filter.
  apply NoDup_filter, NoDup_nodup.
Qed.

Lemma customer_pairs_keys_distinct :
  NoDup (map fst (Sql.customer_pairs cps)).
Proof.
  rewrite customer_pairs_eq, keys_of_filter.
  apply NoDup_filter, NoDup_nodup.
Qed.

Lemma customer_pairs_row (a b n : Z) :
  In (a, b, n) (Sql.customer_pairs cps) ->
  n = Z.of_nat (List.length
                  (Sql.shared_products_of (Sql.shared_rows cps) (a, b))) /\
  2 <= n /\
  exists p, In ((a, b), p) (Sql.shared_rows cps).
Proof.
  rewrite customer_pairs_eq. intros H.
  apply filter_In in H. destruct H as [H Hn]. cbn in Hn.
  apply in_map_iff in H. destruct H as [g [Hg Hin]].
  inversion Hg; subst. clear Hg.
  apply nodup_In, in_map_iff in Hin. destruct Hin as [[g' p] [Hfst Hin]].
  cbn in Hfst. subst g'.
  split; [reflexivity|]. split; [apply Z.leb_le, Hn|].
  exists p. exact Hin.
Qed.

Lemma customer_pairs_ordered (a b n : Z) :
  In (a, b, n) (Sql.customer_pairs cps) -> a < b.
Proof.
  intros H. apply customer_pairs_row in H.
  destruct H as [_ [_ [p Hp]]]. apply shared_rows_spec in Hp. tauto.
Qed.

End CustomerPairs.

(** C4.  Whatever [customer_products] holds, [customer_pairs] has at most
    one row per pair of customers, no row [(a, a)], never both [(a, b)] and
    [(b, a)], and every row [(a, b, n)] has [a < b] and counts [n >= 2]
    distinct products that both [a] and [b] bought. *)
Theorem customer_pairs_irreflexive_unique
    (cps : list (Sql.customer_product * Z)) :
  let pairs := Sql.customer_pairs cps in
  NoDup (map fst pairs) /\
  (forall a n, ~ In (a, a, n) pairs) /\
  (forall a b n m, In (a, b, n) pairs -> ~ In (b, a, m) pairs) /\
  (forall a b n, In (a, b, n) pairs ->
     a < b /\ 2 <= n /\
     exists products,
       NoDup products /\
       Z.of_nat (List.length products) = n /\
       forall p, In p products <-> purchased cps a p /\ purchased cps b p).
Proof.
  cbv zeta. split; [apply customer_pairs_keys_distinct|].
  split; [|split].
  - intros a n H. apply customer_pairs_ordered in H. lia.
  - intros a b n m H1 H2.
    apply customer_pairs_ordered in H1. apply customer_pairs_ordered in H2. lia.
  - intros a b n H.
    pose proof (customer_pairs_ordered cps a b n H) as Hlt.
    destruct (customer_pairs_row cps a b n H) as [Hn [Hge _]].
    split; [exact Hlt|]. split; [exact Hge|].
    exists (Sql.shared_products_of (Sql.shared_rows cps) (a, b)).
    split; [apply NoDup_nodup|]. split; [symmetry; exact Hn|].
    intros p. rewrite shared_products_spec, shared_rows_spec. tauto.
Qed.

(** The scenarios of the specification: orders of 100 and 200 by one
    customer and of 300 by another; two customers sharing two products. *)
Example customer_metrics_sample :
  Sql.customer_metrics_query Samples.today Samples.orders
  = (3, 2, 600%Q, (600 # 3)%Q) /\
  ValidateCustomerProfiling.avg_lifetime_value_of (3, 2, 600%Q, (600 # 3)%Q)
  = inr (600 / 2)%Q /\
  ValidateCustomerProfiling.orders_per_customer_of (3, 2, 600%Q, (600 # 3)%Q)
  = inr (3 / 2)%Q.
Proof. repeat split. Qed.

Example collaborative_sample :
  let row := Sql.collaborative_query Samples.today Samples.orders
               Samples.order_items in
  r_active_customer_pairs row = Some 1 /\
  r_avg_shared_products row = Some 2%Q /\
  (ValidateMetrics.similarity_score_of 2 == 2 / 10)%Q.
Proof. repeat split. Qed.

Example customer_pairs_sample :
  Sql.customer_pairs
    (Sql.customer_products Samples.today Samples.orders Samples.order_items)
  = [(1, 2, 2)].
Proof. reflexivity. Qed.

(* ===================================================================== *)
(** ** Composing operations that always return *)
(* ===================================================================== *)

Arguments ValidateMetrics.validate_database_structure : simpl never.
Arguments ValidateMetrics.validate_collaborative_metrics : simpl never.
Arguments ValidateMetrics.validate_high_value_pairs : simpl never.
Arguments ValidateMetrics.validate_cross_region_products : simpl never.
Arguments ValidateCustomerProfiling.validate_customer_profiling : simpl never.
Arguments ValidateCustomerProfiling.validate_geographic_distribution : simpl never.
Arguments ValidateCustomerProfiling.compare_with_frontend : simpl never.

Lemma connection_events_app (a b : list event) :
  connection_events (a ++ b) = (connection_events a ++ connection_events b)%list.
Proof. apply filter_app. Qed.

Lemma extend_nil (w : world) : extend w [] = w.
Proof. destruct w. unfold extend. cbn. rewrite app_nil_r. reflexivity. Qed.

Lemma extend_extend (w : world) (a b : list event) :
  extend (extend w a) b = extend w (a ++ b).
Proof. unfold extend. cbn. rewrite app_assoc. reflexivity. Qed.

Lemma returning_ret {A} (a : A) (R : A -> Prop) :
  R a -> returning (ret a) R [].
Proof.
  intros Ha w. exists (Ret a), []. rewrite extend_nil.
  split; [reflexivity|]. split; [exists a; auto | reflexivity].
Qed.

Lemma returning_emit (e : event) :
  returning (emit e) (fun _ => True) (connection_events [e]).
Proof.
  intros w. exists (Ret tt), [e].
  split; [reflexivity|]. split; [exists tt; auto | reflexivity].
Qed.

Lemma returning_print (fmt : string) (args : list pyval) :
  returning (print fmt args) (fun _ => True) [].
Proof. apply (returning_emit (Stdout fmt args)). Qed.

Lemma returning_bind {A B} (c : M A) (k : A -> M B)
    (R1 : A -> Prop) (R2 : B -> Prop) (t1 t2 : list event) :
  returning c R1 t1 ->
  (forall a, R1 a -> returning (k a) R2 t2) ->
  returning (bind c k) R2 (t1 ++ t2).
Proof.
  intros Hc Hk w.
  destruct (Hc w) as (r1 & e1 & Hrun1 & (a & -> & Ha) & Ht1).
  destruct (Hk a Ha (extend w e1)) as (r2 & e2 & Hrun2 & Hr2 & Ht2).
  exists r2, (e1 ++ e2)%list. unfold bind. rewrite Hrun1, Hrun2, extend_extend.
  split; [reflexivity|]. split; [exact Hr2|].
  rewrite connection_events_app, Ht1, Ht2. reflexivity.
Qed.

Lemma returning_weaken {A} (c : M A) (R R' : A -> Prop) (t t' : list event) :
  returning c R t -> (forall a, R a -> R' a) -> t = t' -> returning c R' t'.
Proof.
  intros Hc HR <- w.
  destruct (Hc w) as (r & e & Hrun & (a & -> & Ha) & Ht).
  exists (Ret a), e. split; [exact Hrun|]. split; [exists a; auto | exact Ht].
Qed.

(** A [try] whose body cannot raise never enters its handler. *)
Lemma returning_try_except {A} (body : M A) (handler : exn -> M A)
    (R : A -> Prop) (t : list event) :
  returning body R t -> returning (try_except body handler) R t.
Proof.
  intros Hb w.
  destruct (Hb w) as (r & e & Hrun & (a & -> & Ha) & Ht).
  exists (Ret a), e. unfold try_except. rewrite Hrun.
  split; [reflexivity|]. split; [exists a; auto | exact Ht].
Qed.

Lemma returning_try_finally {A} (body : M A) (cleanup : M unit)
    (R : A -> Prop) (R' : unit -> Prop) (t1 t2 : list event) :
  returning body R t1 -> returning cleanup R' t2 ->
  returning (try_finally body cleanup) R (t1 ++ t2).
Proof.
  intros Hb Hc w.
  destruct (Hb w) as (r1 & e1 & Hrun1 & (a & -> & Ha) & Ht1).
  destruct (Hc (extend w e1)) as (r2 & e2 & Hrun2 & (u & -> & _) & Ht2).
  exists (Ret a), (e1 ++ e2)%list.
  unfold try_finally. rewrite Hrun1, Hrun2, extend_extend.
  split; [reflexivity|]. split; [exists a; auto|].
  rewrite connection_events_app, Ht1, Ht2. reflexivity.
Qed.

Lemma returning_when (c : bool) (body : M unit) :
  returning body (fun _ => True) [] ->
  returning (ValidateMetrics.when c body) (fun _ => True) [].
Proof.
  intros Hb. destruct c; [exact Hb|]. apply returning_ret. exact I.
Qed.

Lemma returning_for_fold {A S} (body : S -> A -> M S) (g : A -> list event)
    (xs : list A) :
  (forall acc x, returning (body acc x) (fun _ => True) (g x)) ->
  forall acc, returning (for_fold xs acc body) (fun _ => True) (flat_map g xs).
Proof.
  intros Hbody. induction xs as [|x rest IH]; intros acc.
  - apply returning_ret. exact I.
  - cbn [for_fold flat_map]. eapply returning_bind; [apply Hbody|].
    intros acc' _. apply IH.
Qed.

(** Proves [returning c R t] for straight-line code ending in a branch
    that was just destructed. *)
Ltac returned :=
  cbn; eexists; eexists;
  split; [unfold extend; reassoc; reflexivity|];
  split; [eexists; split; [reflexivity|] | reflexivity].

(* ===================================================================== *)
(** ** validate_metrics.py: every operation returns *)
(* ===================================================================== *)

Lemma table_check_returning (env : environment) (h : nat)
    (table_status : dict Z) (table : string) :
  returning
    (try_except
       (count <- execute h (QTableCount table) (run_table_count env table) ;;
        let table_status := dict_set table_status table count in
        let status := if 0 <? count then "ok" else "empty" in
        print "   {} {}: {:,} rows" [VStr status; VStr table; VInt count] ;;
        ret table_status)
       (fun e =>
        let table_status := dict_set table_status table (-1) in
        print "   {}: {}" [VStr table; VExn e] ;;
        ret table_status))
    (fun _ => True)
    [Execute h (QTableCount table)].
Proof.
  intros w. step.
  destruct (run_table_count env table) as [msg|count]; returned; exact I.
Qed.

Lemma validate_database_structure_returning (env : environment) (h : nat) :
  returning (ValidateMetrics.validate_database_structure env h)
    (fun _ => True)
    ([OpenCursor h]
     ++ map (fun t => Execute h (QTableCount t)) ValidateMetrics.required_tables
     ++ [CloseCursor h]).
Proof.
  unfold ValidateMetrics.validate_database_structure.
  eapply returning_weaken.
  - eapply returning_bind; [apply returning_print|]. intros _ _.
    eapply returning_bind; [apply returning_print|]. intros _ _.
    eapply returning_bind; [apply returning_emit|]. intros _ _.
    eapply returning_bind.
    + apply (returning_for_fold _
               (fun t => [Execute h (QTableCount t)])).
      intros acc x. apply table_check_returning.
    + intros ts _.
      eapply returning_bind; [apply returning_emit|]. intros _ _.
      apply returning_ret. exact I.
  - auto.
  - reflexivity.
Qed.

(** A failing collaborative query is caught inside the operation, which
    then returns [None]; the cursor is closed on every path. *)
Lemma validate_collaborative_metrics_returning (env : environment) (h : nat) :
  returning (ValidateMetrics.validate_collaborative_metrics env h)
    (fun m => forall msg, run_collaborative env = inl msg -> m = None)
    [OpenCursor h; Execute h QCollaborative; CloseCursor h].
Proof.
  intros w. unfold ValidateMetrics.validate_collaborative_metrics. step.
  destruct (run_collaborative env) as [msg|[row|]] eqn:E.
  - returned. reflexivity.
  - cbn. rewrite recommendation_coverage_divides. returned.
    intros msg Hmsg. discriminate.
  - returned. reflexivity.
Qed.

Lemma validate_high_value_pairs_returning (env : environment) (h : nat) :
  returning (ValidateMetrics.validate_high_value_pairs env h)
    (fun n => forall msg, run_high_value_pairs env = inl msg -> n = 0)
    [OpenCursor h; Execute h QHighValuePairs; CloseCursor h].
Proof.
  intros w. unfold ValidateMetrics.validate_high_value_pairs. step.
  destruct (run_high_value_pairs env) as [msg|result] eqn:E.
  - returned. reflexivity.
  - returned. intros msg Hmsg. discriminate.
Qed.

Lemma validate_cross_region_products_returning (env : environment) (h : nat) :
  returning (ValidateMetrics.validate_cross_region_products env h)
    (fun n => forall msg, run_cross_region env = inl msg -> n = 0)
    [OpenCursor h; Execute h QCrossRegion; CloseCursor h].
Proof.
  intros w. unfold ValidateMetrics.validate_cross_region_products. step.
  destruct (run_cross_region env) as [msg|result] eqn:E.
  - returned. reflexivity.
  - returned. intros msg Hmsg. discriminate.
Qed.

Lemma bind_run {A B} (c : M A) (k : A -> M B) (w w' : world) (a : A) :
  c w = (Ret a, w') -> bind c k w = k a w'.
Proof. intros H. unfold bind. rewrite H. reflexivity. Qed.

Lemma bind_print_run {B} (fmt : string) (args : list pyval)
    (k : unit -> M B) (w : world) :
  bind (print fmt args) k w = k tt (extend w [Stdout fmt args]).
Proof. reflexivity. Qed.

Lemma metrics_connection_ok (env : environment) (w : world) :
  connect_ok env (attempts w) = true ->
  ValidateMetrics.get_db_connection env w
  = (Ret (Some (attempts w)),
     {| attempts := S (attempts w);
        log := log w ++ [Connect (attempts w)] |}).
Proof.
  intros H. unfold ValidateMetrics.get_db_connection, psycopg2_connect.
  step. rewrite H. reflexivity.
Qed.

Lemma metrics_connection_failed (env : environment) (w : world) :
  connect_ok env (attempts w) = false ->
  ValidateMetrics.get_db_connection env w
  = (Ret None,
     {| attempts := S (attempts w);
        log := log w ++ [ConnectFailed;
                         Stdout "Database connection failed: {}"
                                [VExn OperationalError]] |}).
Proof.
  intros H. unfold ValidateMetrics.get_db_connection, psycopg2_connect.
  step. rewrite H. cbn. rewrite <- app_assoc. reflexivity.
Qed.

(** Decomposes a goal [returning c R t] along the structure of [c]. *)
Ltac leaf :=
  cbv beta zeta;
  lazymatch goal with
  | |- returning (print _ _) _ _ => apply returning_print
  | |- returning (emit _) _ _ => apply returning_emit
  | |- returning (ret _) _ _ => apply returning_ret; reflexivity
  | |- returning (ValidateMetrics.when _ _) _ _ =>
      apply returning_when;
      eapply returning_weaken; [leaf | auto | reflexivity]
  | |- returning (bind _ _) _ _ =>
      eapply returning_bind; [leaf | intros ? ?; leaf]
  | |- returning (ValidateMetrics.validate_database_structure _ _) _ _ =>
      apply validate_database_structure_returning
  | |- returning (ValidateMetrics.validate_collaborative_metrics _ _) _ _ =>
      apply validate_collaborative_metrics_returning
  | |- returning (ValidateMetrics.validate_high_value_pairs _ _) _ _ =>
      apply validate_high_value_pairs_returning
  | |- returning (ValidateMetrics.validate_cross_region_products _ _) _ _ =>
      apply validate_cross_region_products_returning
  | |- returning (match ?x with _ => _ end) _ _ => destruct x; leaf
  end.

(** With a connection, [main] of [validate_metrics.py] returns [True]
    whatever the queries answer, and sends every query in turn on that one
    connection before closing it. *)
Lemma metrics_main_connected (env : environment) (w : world) :
  connect_ok env (attempts w) = true ->
  exists evs,
    ValidateMetrics.main env w
    = (Ret true,
       {| attempts := S (attempts w); log := log w ++ evs |}) /\
    connection_events evs = metrics_connection_trace_from (attempts w).
Proof.
  intros Hc. unfold ValidateMetrics.main.
  repeat (rewrite bind_print_run; cbv beta).
  match goal with
  | |- context [bind (ValidateMetrics.get_db_connection env) _ ?w0] =>
      rewrite (bind_run _ _ w0 _ _ (metrics_connection_ok env w0 Hc))
  end.
  cbv beta iota. cbn [attempts extend log].
  match goal with
  | |- context [try_finally ?b ?c ?w1] =>
      assert (Hr : returning (try_finally b c) (fun r => r = true)
                     (tl (metrics_connection_trace_from (attempts w))));
      [| destruct (Hr w1) as (r & e & Hrun & (a & -> & ->) & Ht);
         rewrite Hrun ]
  end.
  - eapply (returning_weaken _ (fun r => r = true)).
    + eapply returning_try_finally;
        [apply returning_try_except; leaf | apply returning_emit].
    + auto.
    + reflexivity.
  - unfold extend. cbn [attempts log]. eexists.
    split; [reassoc; reflexivity|].
    rewrite !connection_events_app, Ht. reflexivity.
Qed.

Lemma metrics_main_unreachable (env : environment) (w : world) :
  connect_ok env (attempts w) = false ->
  exists evs,
    ValidateMetrics.main env w
    = (Ret false,
       {| attempts := S (attempts w); log := log w ++ evs |}) /\
    connection_events evs = [ConnectFailed].
Proof.
  intros Hc. unfold ValidateMetrics.main.
  repeat (rewrite bind_print_run; cbv beta).
  match goal with
  | |- context [bind (ValidateMetrics.get_db_connection env) _ ?w0] =>
      rewrite (bind_run _ _ w0 _ _ (metrics_connection_failed env w0 Hc))
  end.
  cbv beta iota. step. unfold extend. cbn [attempts log].
  eexists. split; [reassoc; reflexivity|]. reflexivity.
Qed.

(* ===================================================================== *)
(** ** validate_customer_profiling.py: what a run does *)
(* ===================================================================== *)

Lemma bind_raise {A B} (c : M A) (k : A -> M B) (w w' : world) (e : exn) :
  c w = (Raise e, w') -> bind c k w = (Raise e, w').
Proof. intros H. unfold bind. rewrite H. reflexivity. Qed.

Lemma connection_events_report {A} (f : A -> event) (l : list A) :
  (forall x, is_connection_event (f x) = false) ->
  connection_events (map f l) = [].
Proof.
  intros H. induction l as [|x rest IH]; [reflexivity|].
  cbn. rewrite H. exact IH.
Qed.

(** [main] catches every exception: it always returns. *)
Lemma profiling_main_returns (env : environment) (w : world) :
  fst (ValidateCustomerProfiling.main env w) = Ret tt.
Proof.
  unfold ValidateCustomerProfiling.main.
  repeat (rewrite bind_print_run; cbv beta).
  unfold try_except.
  match goal with
  | |- context [match ?c with _ => _ end] => destruct c as [[[]|e] w1]
  end; reflexivity.
Qed.

(** A failing customer-metrics query is not caught in the operation. *)
Lemma profiling_customer_query_fails (env : environment) (w : world)
    (msg : string) :
  connect_ok env (attempts w) = true ->
  run_customer_metrics env = inl msg ->
  ValidateCustomerProfiling.validate_customer_profiling env w
  = (Raise (DatabaseError msg),
     {| attempts := S (attempts w);
        log := log w ++
          [Stdout "VALIDATING CUSTOMER PROFILING METRICS" [];
           Stdout "============================================================" [];
           Connect (attempts w); OpenCursor (attempts w);
           Execute (attempts w) QCustomerMetrics] |}).
Proof.
  intros Hc Hq.
  unfold ValidateCustomerProfiling.validate_customer_profiling,
    ValidateCustomerProfiling.get_db_connection, psycopg2_connect.
  step. rewrite Hc. cbn. rewrite Hq. cbn. reassoc. reflexivity.
Qed.

Lemma profiling_customer_ok (env : environment) (w : world)
    (r0 r1 : Z) (r2 r3 : Q) :
  connect_ok env (attempts w) = true ->
  run_customer_metrics env = inr (r0, r1, r2, r3) ->
  r1 <> 0 ->
  exists m evs,
    ValidateCustomerProfiling.validate_customer_profiling env w
    = (Ret m, {| attempts := S (attempts w); log := log w ++ evs |}) /\
    connection_events evs
    = [Connect (attempts w); OpenCursor (attempts w);
       Execute (attempts w) QCustomerMetrics;
       CloseCursor (attempts w); Close (attempts w)].
Proof.
  intros Hc Hq Hnz.
  unfold ValidateCustomerProfiling.validate_customer_profiling,
    ValidateCustomerProfiling.get_db_connection, psycopg2_connect.
  step. rewrite Hc. cbn. rewrite Hq. cbn.
  unfold ValidateCustomerProfiling.avg_lifetime_value_of,
    ValidateCustomerProfiling.orders_per_customer_of.
  rewrite !truediv_Z by exact Hnz.
  destruct (0 <? r1); cbn;
    eexists; eexists; (split; [reassoc; reflexivity | reflexivity]).
Qed.

Lemma profiling_geographic_ok (env : environment) (w : world)
    (rows : list city_row) :
  connect_ok env (attempts w) = true ->
  run_geographic env = inr rows ->
  rows = [] \/ sumZ (map city_customers rows) <> 0 ->
  exists evs,
    ValidateCustomerProfiling.validate_geographic_distribution env w
    = (Ret rows, {| attempts := S (attempts w); log := log w ++ evs |}) /\
    connection_events evs
    = [Connect (attempts w); OpenCursor (attempts w);
       Execute (attempts w) QGeographic;
       CloseCursor (attempts w); Close (attempts w)].
Proof.
  intros Hc Hq Hrows.
  unfold ValidateCustomerProfiling.validate_geographic_distribution,
    ValidateCustomerProfiling.get_db_connection, psycopg2_connect.
  step. rewrite Hc. cbn. rewrite Hq. cbn.
  destruct Hrows as [->|Hnz].
  - cbn. eexists. split; [reassoc; reflexivity | reflexivity].
  - rewrite (for_each_emits
               (city_report_line (sumZ (map city_customers rows)))).
    2:{ intros [i [[[city customers] orders] revenue]] w0.
        rewrite percentage_of_nonzero by exact Hnz. reflexivity. }
    unfold extend. cbn.
    eexists. split; [reassoc; reflexivity|].
    rewrite !connection_events_app.
    rewrite (connection_events_report (city_report_line _)).
    + reflexivity.
    + intros [i [[[city customers] orders] revenue]]. reflexivity.
Qed.

Lemma compare_with_frontend_ok (env : environment) (w : world)
    (r0 r1 : Z) (r2 r3 : Q) (rows : list city_row) :
  connect_ok env (attempts w) = true ->
  connect_ok env (S (attempts w)) = true ->
  run_customer_metrics env = inr (r0, r1, r2, r3) ->
  r1 <> 0 ->
  run_geographic env = inr rows ->
  rows = [] \/ sumZ (map city_customers rows) <> 0 ->
  exists v evs,
    ValidateCustomerProfiling.compare_with_frontend env w
    = (Ret v, {| attempts := S (S (attempts w)); log := log w ++ evs |}) /\
    connection_events evs = profiling_connection_trace_from (attempts w).
Proof.
  intros Hc1 Hc2 Hq1 Hnz Hq2 Hrows.
  unfold ValidateCustomerProfiling.compare_with_frontend.
  repeat (rewrite bind_print_run; cbv beta).
  match goal with
  | |- context [bind (ValidateCustomerProfiling.validate_customer_profiling env)
                     _ ?w0] =>
      destruct (profiling_customer_ok env w0 r0 r1 r2 r3 Hc1 Hq1 Hnz)
        as (m & e1 & Hrun1 & Ht1);
      rewrite (bind_run _ _ w0 _ _ Hrun1)
  end.
  cbv beta.
  match goal with
  | |- context [bind (ValidateCustomerProfiling.validate_geographic_distribution
                        env) _ ?w1] =>
      destruct (profiling_geographic_ok env w1 rows Hc2 Hq2 Hrows)
        as (e2 & Hrun2 & Ht2);
      rewrite (bind_run _ _ w1 _ _ Hrun2)
  end.
  cbv beta. cbn [attempts log extend] in *.
  assert (Hloop : forall w0,
    for_each (enumerate (firstn 5 rows) 1)
      (fun '(i, city_data) =>
         let '(city, customers, orders, revenue) := city_data in
         percentage <- lift (ValidateCustomerProfiling.percentage_of customers
                               (sumZ (map city_customers rows))) ;;
         print "  {}. {:<12}: {:3.1f}% ({} customers - REAL DATA)"
               [VInt i; VStr city; VNum percentage; VInt customers]) w0
    = (Ret tt,
       extend w0
         (map (fun '(i, (city, customers, orders, revenue)) =>
                 Stdout "  {}. {:<12}: {:3.1f}% ({} customers - REAL DATA)"
                   [VInt i; VStr city;
                    VNum (percentage_exact customers
                            (sumZ (map city_customers rows)));
                    VInt customers])
              (enumerate (firstn 5 rows) 1)))).
  { intros w0. destruct Hrows as [->|Hsum].
    - cbn. rewrite extend_nil. reflexivity.
    - apply for_each_emits.
      intros [i [[[city customers] orders] revenue]] w1.
      unfold bind, lift. rewrite percentage_of_nonzero by exact Hsum.
      reflexivity. }
  step. rewrite Hloop. unfold extend. cbn.
  eexists. eexists. split; [reassoc; reflexivity|].
  rewrite !connection_events_app, Ht1, Ht2.
  rewrite connection_events_report.
  - reflexivity.
  - intros [i [[[city customers] orders] revenue]]. reflexivity.
Qed.

Lemma profiling_main_ok (env : environment) (w : world)
    (r0 r1 : Z) (r2 r3 : Q) (rows : list city_row) :
  connect_ok env (attempts w) = true ->
  connect_ok env (S (attempts w)) = true ->
  run_customer_metrics env = inr (r0, r1, r2, r3) ->
  r1 <> 0 ->
  run_geographic env = inr rows ->
  rows = [] \/ sumZ (map city_customers rows) <> 0 ->
  exists evs,
    snd (ValidateCustomerProfiling.main env w)
    = {| attempts := S (S (attempts w)); log := log w ++ evs |} /\
    connection_events evs = profiling_connection_trace_from (attempts w).
Proof.
  intros Hc1 Hc2 Hq1 Hnz Hq2 Hrows.
  unfold ValidateCustomerProfiling.main.
  repeat (rewrite bind_print_run; cbv beta).
  unfold try_except.
  match goal with
  | |- context [bind (ValidateCustomerProfiling.compare_with_frontend env)
                     _ ?w0] =>
      destruct (compare_with_frontend_ok env w0 r0 r1 r2 r3 rows
                  Hc1 Hc2 Hq1 Hnz Hq2 Hrows)
        as (v & e & Hrun & Ht);
      rewrite (bind_run _ _ w0 _ _ Hrun)
  end.
  cbv beta. unfold ValidateCustomerProfiling.save_results.
  step. destruct (file_writable env); cbn; unfold extend; cbn;
    (eexists; split; [reassoc; reflexivity|]);
    rewrite !connection_events_app, Ht; reflexivity.
Qed.



(* ===================================================================== *)
(** ** The scripts as processes *)
(* ===================================================================== *)

Lemma metrics_script_connected (env : environment) :
  connect_ok env 0%nat = true ->
  fst (ValidateMetrics.script env) = 0 /\
  fst (ValidateMetrics.main env initial_world) = Ret true /\
  connection_events (log (snd (ValidateMetrics.script env)))
  = metrics_connection_trace.
Proof.
  intros Hc. unfold ValidateMetrics.script.
  destruct (metrics_main_connected env initial_world Hc) as (evs & Hrun & Ht).
  rewrite Hrun. cbn. split; [reflexivity|]. split; [reflexivity|]. exact Ht.
Qed.

Lemma metrics_script_unreachable (env : environment) :
  connect_ok env 0%nat = false ->
  fst (ValidateMetrics.script env) = 1 /\
  connection_events (log (snd (ValidateMetrics.script env))) = [ConnectFailed].
Proof.
  intros Hc. unfold ValidateMetrics.script.
  destruct (metrics_main_unreachable env initial_world Hc) as (evs & Hrun & Ht).
  rewrite Hrun. cbn. split; [reflexivity | exact Ht].
Qed.

Lemma profiling_script_status (env : environment) :
  fst (ValidateCustomerProfiling.script env) = 0.
Proof.
  unfold ValidateCustomerProfiling.script.
  pose proof (profiling_main_returns env initial_world) as H.
  destruct (ValidateCustomerProfiling.main env initial_world) as [r w].
  cbn in *. rewrite H. reflexivity.
Qed.

Lemma profiling_script_log (env : environment) :
  snd (ValidateCustomerProfiling.script env)
  = snd (ValidateCustomerProfiling.main env initial_world).
Proof.
  unfold ValidateCustomerProfiling.script.
  destruct (ValidateCustomerProfiling.main env initial_world); reflexivity.
Qed.

(** C3 as stated fails for [validate_customer_profiling.py]: when the data
    store cannot be reached, [psycopg2.connect] raises, [main] prints the
    failure and the trace, and the process exits 0. *)
Lemma profiling_exit_zero_on_connection_failure :
  let run := ValidateCustomerProfiling.script Samples.env_unreachable in
  connect_ok Samples.env_unreachable 0%nat = false /\
  connection_events (log (snd run)) = [ConnectFailed] /\
  In (Stdout "Validation failed: {}" [VExn OperationalError]) (log (snd run)) /\
  In Traceback (log (snd run)) /\
  fst run = 0 /\
  fst run <> 1.
Proof.
  cbv zeta. split; [reflexivity|]. split; [reflexivity|].
  split; [vm_compute; tauto|]. split; [vm_compute; tauto|].
  split; [reflexivity|]. vm_compute. discriminate.
Qed.

Lemma connections_opened_connection_events (evs : list event) :
  connections_opened (connection_events evs) = connections_opened evs.
Proof.
  unfold connections_opened, connection_events.
  induction evs as [|e rest IH]; [reflexivity|].
  destruct e; cbn; try (f_equal; exact IH); exact IH.
Qed.

(** C9, as the code has it.  [validate_metrics.py] opens one connection;
    every query of the run is sent on it, in turn, and it is closed last.
    [validate_customer_profiling.py] opens two connections, one in each of
    its two operations; in a run where nothing fails each is closed before
    the next is opened. *)
Theorem connections_per_run (env : environment) :
  connect_ok env 0%nat = true ->
  (connection_events (log (snd (ValidateMetrics.script env)))
     = metrics_connection_trace /\
   connections_opened (log (snd (ValidateMetrics.script env))) = 1%nat) /\
  (forall (r0 r1 : Z) (r2 r3 : Q) (rows : list city_row),
     connect_ok env 1%nat = true ->
     run_customer_metrics env = inr (r0, r1, r2, r3) ->
     r1 <> 0 ->
     run_geographic env = inr rows ->
     rows = [] \/ sumZ (map city_customers rows) <> 0 ->
     connection_events (log (snd (ValidateCustomerProfiling.script env)))
       = profiling_connection_trace /\
     connections_opened (log (snd (ValidateCustomerProfiling.script env)))
       = 2%nat).
Proof.
  intros Hc. split.
  - destruct (metrics_script_connected env Hc) as (_ & _ & Ht).
    split; [exact Ht|].
    rewrite <- connections_opened_connection_events, Ht. reflexivity.
  - intros r0 r1 r2 r3 rows Hc2 Hq1 Hnz Hq2 Hrows.
    rewrite profiling_script_log.
    destruct (profiling_main_ok env initial_world r0 r1 r2 r3 rows
                Hc Hc2 Hq1 Hnz Hq2 Hrows) as (evs & Hrun & Ht).
    rewrite Hrun. cbn [log initial_world app].
    split; [exact Ht|].
    rewrite <- connections_opened_connection_events, Ht. reflexivity.
Qed.

Lemma connections_per_run_witness :
  connection_events (log (snd (ValidateMetrics.script Samples.env_sample)))
    = metrics_connection_trace /\
  connection_events
    (log (snd (ValidateCustomerProfiling.script Samples.env_sample)))
    = profiling_connection_trace.
Proof.
  destruct (connections_per_run Samples.env_sample) as [[Hm _] Hp].
  - reflexivity.
  - split; [exact Hm|].
    apply (Hp 3 2 600%Q (600 # 3)%Q
              (Sql.geographic_query Samples.today Samples.orders)).
    + reflexivity.
    + reflexivity.
    + lia.
    + reflexivity.
    + right. vm_compute. discriminate.
Defined.

(** C9 as stated fails for [validate_customer_profiling.py]: a run opens a
    second connection for the geographic query; and a run that fails in
    the first operation never closes its connection. *)
Lemma profiling_opens_two_connections :
  let run := ValidateCustomerProfiling.script Samples.env_sample in
  let failed := ValidateCustomerProfiling.script Samples.env_no_orders in
  connection_events (log (snd run))
    = [Connect 0%nat; OpenCursor 0%nat; Execute 0%nat QCustomerMetrics;
       CloseCursor 0%nat; Close 0%nat;
       Connect 1%nat; OpenCursor 1%nat; Execute 1%nat QGeographic;
       CloseCursor 1%nat; Close 1%nat] /\
  connections_opened (log (snd run)) = 2%nat /\
  connections_opened (log (snd run)) <> 1%nat /\
  connection_events (log (snd failed))
    = [Connect 0%nat; OpenCursor 0%nat; Execute 0%nat QCustomerMetrics].
Proof.
  cbv zeta. split; [reflexivity|]. split; [reflexivity|].
  split; [vm_compute; discriminate | reflexivity].
Qed.


Lemma customer_pairs_irreflexive_unique_witness :
  In (1, 2, 2)
     (Sql.customer_pairs
        (Sql.customer_products Samples.today Samples.orders
           Samples.order_items)) /\
  1 < 2 /\ 2 <= 2.
Proof.
  destruct (customer_pairs_irreflexive_unique
              (Sql.customer_products Samples.today Samples.orders
                 Samples.order_items)) as (_ & _ & _ & Hrow).
  assert (Hin : In (1, 2, 2)
                   (Sql.customer_pairs
                      (Sql.customer_products Samples.today Samples.orders
                         Samples.order_items)))
    by (left; reflexivity).
  split; [exact Hin|].
  destruct (Hrow 1 2 2 Hin) as (Hlt & Hge & _).
  split; [exact Hlt | exact Hge].
Defined.

(* ===================================================================== *)
(** ** Outcomes of the operations of validate_customer_profiling.py *)
(* ===================================================================== *)

Lemma validate_customer_profiling_fst (env : environment) (w : world) :
  fst (ValidateCustomerProfiling.validate_customer_profiling env w)
  = customer_profiling_outcome env (attempts w).
Proof.
  unfold customer_profiling_outcome,
    ValidateCustomerProfiling.validate_customer_profiling,
    ValidateCustomerProfiling.get_db_connection, psycopg2_connect.
  step. destruct (connect_ok env (attempts w)); cbn; [|reflexivity].
  destruct (run_customer_metrics env) as [msg|[[[r0 r1] r2] r3]]; cbn;
    [reflexivity|].
  unfold ValidateCustomerProfiling.avg_lifetime_value_of,
    ValidateCustomerProfiling.orders_per_customer_of.
  destruct (Z.eqb_spec r1 0) as [->|Hnz].
  - cbn. rewrite truediv_zero by reflexivity. reflexivity.
  - rewrite !truediv_Z by exact Hnz.
    destruct (0 <? r1); reflexivity.
Qed.

(** [validate_customer_profiling] raises exactly when the connection
    fails, the query fails, or the row has no customer; otherwise it returns
    the row's columns with the guarded average. *)
Theorem customer_profiling_outcomes (env : environment) (w : world) :
  fst (ValidateCustomerProfiling.validate_customer_profiling env w)
  = customer_profiling_outcome env (attempts w).
Proof. apply validate_customer_profiling_fst. Qed.

(** [validate_geographic_distribution] raises exactly when the connection
    fails, the query fails, or there are rows whose customer counts add up
    to 0; otherwise it returns the rows as fetched. *)
Theorem geographic_distribution_outcomes (env : environment) (w : world) :
  fst (ValidateCustomerProfiling.validate_geographic_distribution env w)
  = geographic_distribution_outcome env (attempts w).
Proof.
  unfold geographic_distribution_outcome.
  destruct (connect_ok env (attempts w)) eqn:Hc.
  - destruct (run_geographic env) as [msg|rows] eqn:Hq.
    + unfold ValidateCustomerProfiling.validate_geographic_distribution,
        ValidateCustomerProfiling.get_db_connection, psycopg2_connect.
      step. rewrite Hc. cbn. rewrite Hq. reflexivity.
    + destruct rows as [|row rest].
      * destruct (profiling_geographic_ok env w [] Hc Hq (or_introl eq_refl))
          as (evs & Hrun & _).
        rewrite Hrun. reflexivity.
      * destruct (Z.eqb_spec (sumZ (map city_customers (row :: rest))) 0)
          as [Hz|Hnz].
        -- unfold ValidateCustomerProfiling.validate_geographic_distribution,
             ValidateCustomerProfiling.get_db_connection, psycopg2_connect.
           step. rewrite Hc. cbn. rewrite Hq. cbn [fst snd].
           destruct row as [[[city customers] orders] revenue].
           cbn [enumerate for_each]. step.
           unfold ValidateCustomerProfiling.percentage_of.
           cbn [map sumZ fold_right city_customers] in Hz.
           cbn [map sumZ fold_right city_customers]. rewrite Hz.
           rewrite truediv_zero by reflexivity. reflexivity.
        -- destruct (profiling_geographic_ok env w (row :: rest) Hc Hq
                       (or_intror Hnz)) as (evs & Hrun & _).
           rewrite Hrun. reflexivity.
  - unfold ValidateCustomerProfiling.validate_geographic_distribution,
      ValidateCustomerProfiling.get_db_connection, psycopg2_connect.
    step. rewrite Hc. reflexivity.
Qed.

(** After connecting, the two operations close their cursor and their
    connection only on the path that returns: on every failing path both
    stay open. *)
Theorem profiling_operations_close_only_on_return
    (env : environment) (w : world) :
  connect_ok env (attempts w) = true ->
  let h := attempts w in
  (exists evs,
     log (snd (ValidateCustomerProfiling.validate_customer_profiling env w))
       = (log w ++ evs)%list /\
     connection_events evs
       = match fst (ValidateCustomerProfiling.validate_customer_profiling env w)
         with
         | Ret _ => [Connect h; OpenCursor h; Execute h QCustomerMetrics;
                     CloseCursor h; Close h]
         | Raise _ => [Connect h; OpenCursor h; Execute h QCustomerMetrics]
         end) /\
  (exists evs,
     log (snd (ValidateCustomerProfiling.validate_geographic_distribution env w))
       = (log w ++ evs)%list /\
     connection_events evs
       = match fst (ValidateCustomerProfiling.validate_geographic_distribution
                      env w)
         with
         | Ret _ => [Connect h; OpenCursor h; Execute h QGeographic;
                     CloseCursor h; Close h]
         | Raise _ => [Connect h; OpenCursor h; Execute h QGeographic]
         end).
Proof.
  intros Hc h. subst h. split.
  - destruct (run_customer_metrics env) as [msg|[[[r0 r1] r2] r3]] eqn:Hq.
    + rewrite (profiling_customer_query_fails env w msg Hc Hq).
      eexists. split; reflexivity.
    + destruct (Z.eq_dec r1 0) as [->|Hnz].
      * unfold ValidateCustomerProfiling.validate_customer_profiling,
          ValidateCustomerProfiling.get_db_connection, psycopg2_connect.
        step. rewrite Hc. cbn. rewrite Hq. cbn.
        unfold ValidateCustomerProfiling.orders_per_customer_of.
        rewrite truediv_zero by reflexivity. cbn.
        eexists. split; [reassoc; reflexivity | reflexivity].
      * destruct (profiling_customer_ok env w r0 r1 r2 r3 Hc Hq Hnz)
          as (m & evs & Hrun & Ht).
        rewrite Hrun. exists evs. split; [reflexivity | exact Ht].
  - destruct (run_geographic env) as [msg|rows] eqn:Hq.
    + unfold ValidateCustomerProfiling.validate_geographic_distribution,
        ValidateCustomerProfiling.get_db_connection, psycopg2_connect.
      step. rewrite Hc. cbn. rewrite Hq. cbn.
      eexists. split; [reassoc; reflexivity | reflexivity].
    + assert (Hcases : rows = [] \/ sumZ (map city_customers rows) <> 0
                       \/ (rows <> [] /\ sumZ (map city_customers rows) = 0)).
      { destruct rows; [left; reflexivity|].
        destruct (Z.eq_dec (sumZ (map city_customers (c :: rows))) 0);
          [right; right; split; [discriminate | assumption] | right; left;
           assumption]. }
      destruct Hcases as [He|[Hnz|[Hne Hz]]].
      * destruct (profiling_geographic_ok env w rows Hc Hq (or_introl He))
          as (evs & Hrun & Ht).
        rewrite Hrun. exists evs. split; [reflexivity | exact Ht].
      * destruct (profiling_geographic_ok env w rows Hc Hq (or_intror Hnz))
          as (evs & Hrun & Ht).
        rewrite Hrun. exists evs. split; [reflexivity | exact Ht].
      * destruct rows as [|[[[city customers] orders] revenue] rest];
          [contradiction|].
        unfold ValidateCustomerProfiling.validate_geographic_distribution,
          ValidateCustomerProfiling.get_db_connection, psycopg2_connect.
        step. rewrite Hc. cbn. rewrite Hq. cbn [fst snd].
        cbn [enumerate for_each]. step.
        unfold ValidateCustomerProfiling.percentage_of.
        cbn [map sumZ fold_right city_customers] in Hz.
        cbn [map sumZ fold_right city_customers]. rewrite Hz.
        rewrite truediv_zero by reflexivity. cbn.
        eexists. split; [reassoc; reflexivity | reflexivity].
Qed.

Lemma profiling_operations_close_only_on_return_witness :
  exists evs,
    log (snd (ValidateCustomerProfiling.validate_customer_profiling
                Samples.env_missing_tables initial_world)) = evs /\
    connection_events evs
      = [Connect 0%nat; OpenCursor 0%nat; Execute 0%nat QCustomerMetrics].
Proof.
  destruct (profiling_operations_close_only_on_return
              Samples.env_missing_tables initial_world eq_refl)
    as [(evs & Hlog & Ht) _].
  exists evs. split; [exact Hlog | exact Ht].
Defined.

(* ===================================================================== *)
(** ** Events that an operation never produces *)
(* ===================================================================== *)

Section EmitsOnly.

Variable ok : event -> bool.

Lemma emits_only_ret {A} (a : A) : emits_only (ret a) ok.
Proof. intros w. exists []. cbn. rewrite app_nil_r. auto. Qed.

Lemma emits_only_raise {A} (e : exn) : emits_only (@raise A e) ok.
Proof. intros w. exists []. cbn. rewrite app_nil_r. auto. Qed.

Lemma emits_only_lift {A} (r : exn + A) : emits_only (lift r) ok.
Proof. destruct r; [apply emits_only_raise | apply emits_only_ret]. Qed.

Lemma emits_only_emit (e : event) : ok e = true -> emits_only (emit e) ok.
Proof. intros He w. exists [e]. cbn. rewrite He. auto. Qed.

Lemma emits_only_print (fmt : string) (args : list pyval) :
  ok (Stdout fmt args) = true -> emits_only (print fmt args) ok.
Proof. apply emits_only_emit. Qed.

Lemma emits_only_bind {A B} (c : M A) (k : A -> M B) :
  emits_only c ok -> (forall a, emits_only (k a) ok) ->
  emits_only (bind c k) ok.
Proof.
  intros Hc Hk w. destruct (Hc w) as (e1 & H1 & F1). unfold bind.
  destruct (c w) as [[a|e] w1]; cbn in *.
  - destruct (Hk a w1) as (e2 & H2 & F2). exists (e1 ++ e2)%list.
    rewrite H2, H1, app_assoc, forallb_app, F1, F2. auto.
  - exists e1. auto.
Qed.

Lemma emits_only_try_except {A} (body : M A) (handler : exn -> M A) :
  emits_only body ok -> (forall e, emits_only (handler e) ok) ->
  emits_only (try_except body handler) ok.
Proof.
  intros Hb Hh w. destruct (Hb w) as (e1 & H1 & F1). unfold try_except.
  destruct (body w) as [[a|e] w1]; cbn in *.
  - exists e1. auto.
  - destruct (Hh e w1) as (e2 & H2 & F2). exists (e1 ++ e2)%list.
    rewrite H2, H1, app_assoc, forallb_app, F1, F2. auto.
Qed.

Lemma emits_only_for_each {A} (xs : list A) (body : A -> M unit) :
  (forall x, emits_only (body x) ok) -> emits_only (for_each xs body) ok.
Proof.
  intros Hb. induction xs as [|x rest IH]; cbn.
  - apply emits_only_ret.
  - apply emits_only_bind; [apply Hb | intros _; exact IH].
Qed.

Lemma emits_only_connect (env : environment) :
  ok ConnectFailed = true -> (forall h, ok (Connect h) = true) ->
  emits_only (psycopg2_connect env) ok.
Proof.
  intros Hf Hc w. unfold psycopg2_connect.
  destruct (connect_ok env (attempts w)); cbn.
  - exists [Connect (attempts w)]. cbn. rewrite Hc. auto.
  - exists [ConnectFailed]. cbn. rewrite Hf. auto.
Qed.

Lemma emits_only_execute {A} (h : nat) (q : query) (res : string + A) :
  ok (Execute h q) = true -> emits_only (execute h q res) ok.
Proof.
  intros He. unfold execute. apply emits_only_bind.
  - apply emits_only_emit, He.
  - intros _. destruct res; [apply emits_only_raise | apply emits_only_ret].
Qed.

End EmitsOnly.

(** Decomposes a goal [emits_only c ok] along the structure of [c]. *)
Ltac confine :=
  cbv beta zeta;
  lazymatch goal with
  | |- emits_only (print _ _) _ => apply emits_only_print; reflexivity
  | |- emits_only (emit _) _ => apply emits_only_emit; reflexivity
  | |- emits_only (ret _) _ => apply emits_only_ret
  | |- emits_only (lift _) _ => apply emits_only_lift
  | |- emits_only (execute _ _ _) _ => apply emits_only_execute; reflexivity
  | |- emits_only (ValidateCustomerProfiling.get_db_connection _) _ =>
      apply emits_only_connect; [reflexivity | intros ?; reflexivity]
  | |- emits_only (for_each _ _) _ => apply emits_only_for_each; intros ?; confine
  | |- emits_only (bind _ _) _ => apply emits_only_bind; [confine | intros ?; confine]
  | |- emits_only (match ?x with _ => _ end) _ => destruct x; confine
  end.

Lemma validate_customer_profiling_events (env : environment) :
  emits_only (ValidateCustomerProfiling.validate_customer_profiling env)
    operation_event.
Proof. unfold ValidateCustomerProfiling.validate_customer_profiling. confine. Qed.

Lemma validate_geographic_distribution_events (env : environment) :
  emits_only (ValidateCustomerProfiling.validate_geographic_distribution env)
    operation_event.
Proof.
  unfold ValidateCustomerProfiling.validate_geographic_distribution. confine.
Qed.

Lemma compare_with_frontend_events (env : environment) :
  emits_only (ValidateCustomerProfiling.compare_with_frontend env)
    operation_event.
Proof.
  unfold ValidateCustomerProfiling.compare_with_frontend.
  repeat (apply emits_only_bind;
          [first [ apply emits_only_print; reflexivity
                 | apply validate_customer_profiling_events
                 | apply validate_geographic_distribution_events
                 | confine ]
          | intros ? ]).
  confine.
Qed.

Lemma operation_events_exclude (evs : list event) :
  forallb operation_event evs = true ->
  ~ In JsonDump evs /\ ~ In Traceback evs.
Proof.
  intros H. rewrite forallb_forall in H.
  split; intros Hin; apply H in Hin; discriminate.
Qed.

(** Every run of [validate_customer_profiling.py] ends in exactly one of
    two ways: the JSON snapshot is written (and nothing was reported as
    failed), or a traceback is printed (and no snapshot is written).  The
    snapshot needs a writable file. *)
Theorem snapshot_or_traceback (env : environment) :
  let l := log (snd (ValidateCustomerProfiling.script env)) in
  (In JsonDump l /\ ~ In Traceback l /\ file_writable env = true) \/
  (In Traceback l /\ ~ In JsonDump l).
Proof.
  cbv zeta. rewrite profiling_script_log.
  unfold ValidateCustomerProfiling.main.
  repeat (rewrite bind_print_run; cbv beta).
  unfold try_except.
  match goal with
  | |- context [bind (ValidateCustomerProfiling.compare_with_frontend env)
                     _ ?w0] =>
      destruct (compare_with_frontend_events env w0) as (evs & Hlog & Hok);
      destruct (ValidateCustomerProfiling.compare_with_frontend env w0)
        as [[v|e] w1] eqn:Hrun;
      [rewrite !(bind_run _ _ w0 _ _ Hrun)
      |rewrite !(bind_raise _ _ w0 _ _ Hrun)]
  end; cbn [snd log extend initial_world attempts app] in Hlog;
    apply operation_events_exclude in Hok; destruct Hok as [Hj Ht].
  - unfold ValidateCustomerProfiling.save_results. step.
    destruct (file_writable env); cbn; rewrite Hlog; [left | right];
      repeat rewrite in_app_iff; cbn; intuition (try discriminate).
  - step. rewrite Hlog. right.
    repeat rewrite in_app_iff; cbn; intuition (try discriminate).
Qed.

(* ===================================================================== *)
(** ** The table status of validate_database_structure *)
(* ===================================================================== *)

Lemma dict_get_missing {V} (d : dict V) (k : string) (default : V) :
  ~ In k (map fst d) -> dict_get d k default = default.
Proof.
  induction d as [|[k' v'] rest IH]; intros Hk; [reflexivity|].
  cbn in *. destruct (String.eqb_spec k k') as [->|Hne].
  - exfalso. apply Hk. left. reflexivity.
  - apply IH. intros Hin. apply Hk. right. exact Hin.
Qed.

Lemma for_fold_pure {A S} (ok : event -> bool) (body : S -> A -> M S)
    (f : S -> A -> S) :
  (forall acc x w, exists evs,
      body acc x w = (Ret (f acc x), extend w evs) /\
      forallb ok evs = true) ->
  forall xs acc w, exists evs,
    for_fold xs acc body w = (Ret (fold_left f xs acc), extend w evs) /\
    forallb ok evs = true.
Proof.
  intros Hbody. induction xs as [|x rest IH]; intros acc w.
  - exists []. rewrite extend_nil. split; reflexivity.
  - destruct (Hbody acc x w) as (e1 & H1 & F1).
    destruct (IH (f acc x) (extend w e1)) as (e2 & H2 & F2).
    exists (e1 ++ e2)%list. cbn [for_fold fold_left].
    rewrite (bind_run _ _ _ _ _ H1), H2, extend_extend, forallb_app, F1, F2.
    split; reflexivity.
Qed.

Lemma bind_emit_run {B} (e : event) (k : unit -> M B) (w : world) :
  bind (emit e) k w = k tt (extend w [e]).
Proof. reflexivity. Qed.

(** Proves [c w = (r, extend w ?evs) /\ forallb ok ?evs = true] after
    symbolic execution. *)
Ltac executed :=
  cbn; eexists; split; [unfold extend; reassoc; reflexivity | reflexivity].

Lemma validate_database_structure_result (env : environment) (h : nat)
    (w : world) :
  exists evs,
    ValidateMetrics.validate_database_structure env h w
    = (Ret (fold_left (fun d t => dict_set d t (recorded_count env t))
                      ValidateMetrics.required_tables []),
       extend w evs) /\
    forallb operation_line evs = true.
Proof.
  unfold ValidateMetrics.validate_database_structure.
  repeat (rewrite bind_print_run; cbv beta).
  rewrite bind_emit_run. cbv beta.
  match goal with
  | |- context [bind (for_fold ?tables ?start ?body) _ ?w0] =>
      assert (Hbody : forall acc x w, exists evs,
                body acc x w
                = (Ret (dict_set acc x (recorded_count env x)), extend w evs)
                /\ forallb operation_line evs = true);
      [| destruct (for_fold_pure operation_line body _ Hbody tables start w0)
           as (evs & Hrun & Hok);
         rewrite (bind_run _ _ w0 _ _ Hrun) ]
  end.
  - intros acc x w1. unfold recorded_count. step.
    destruct (run_table_count env x) as [msg|count]; executed.
  - step. eexists. split; [unfold extend; cbn; reassoc; reflexivity|].
    cbn. rewrite forallb_app, Hok. reflexivity.
Qed.

(** [validate_database_structure] always returns a status with exactly
    the six required tables, in order: each table's row count, or -1 when
    its count query fails; a failing table does not stop the others.  Any
    other key is absent, so a lookup falls back to its default. *)
Theorem table_status_of_every_table (env : environment) (h : nat) (w : world) :
  exists table_status w',
    ValidateMetrics.validate_database_structure env h w
      = (Ret table_status, w') /\
    map fst table_status = ValidateMetrics.required_tables /\
    (forall table default,
       dict_get table_status table default
       = if in_dec string_dec table ValidateMetrics.required_tables
         then recorded_count env table
         else default).
Proof.
  destruct (validate_database_structure_result env h w) as (evs & Hrun & _).
  eexists. eexists. split; [exact Hrun|].
  split; [reflexivity|].
  intros table default.
  destruct (in_dec string_dec table ValidateMetrics.required_tables)
    as [Hin|Hout].
  - cbn in Hin.
    repeat (destruct Hin as [<-|Hin]; [reflexivity|]). contradiction.
  - apply dict_get_missing. exact Hout.
Qed.

(* ===================================================================== *)
(** ** The report of validate_metrics.py *)
(* ===================================================================== *)

Lemma validate_collaborative_metrics_result (env : environment) (h : nat)
    (w : world) :
  exists evs,
    ValidateMetrics.validate_collaborative_metrics env h w
    = (Ret (collaborative_result env), extend w evs) /\
    forallb operation_line evs = true.
Proof.
  unfold ValidateMetrics.validate_collaborative_metrics, collaborative_result.
  step. destruct (run_collaborative env) as [msg|[row|]].
  - executed.
  - cbn. rewrite recommendation_coverage_divides. executed.
  - executed.
Qed.

Lemma validate_high_value_pairs_result (env : environment) (h : nat)
    (w : world) :
  exists evs,
    ValidateMetrics.validate_high_value_pairs env h w
    = (Ret (reported_count (run_high_value_pairs env)), extend w evs) /\
    forallb operation_line evs = true.
Proof.
  unfold ValidateMetrics.validate_high_value_pairs, reported_count.
  step. destruct (run_high_value_pairs env) as [msg|[count|]]; executed.
Qed.

Lemma validate_cross_region_products_result (env : environment) (h : nat)
    (w : world) :
  exists evs,
    ValidateMetrics.validate_cross_region_products env h w
    = (Ret (reported_count (run_cross_region env)), extend w evs) /\
    forallb operation_line evs = true.
Proof.
  unfold ValidateMetrics.validate_cross_region_products, reported_count.
  step. destruct (run_cross_region env) as [msg|[count|]]; executed.
Qed.

Lemma bind_when_run {B} (c : bool) (body : M unit) (k : unit -> M B)
    (w : world) (evs : list event) :
  body w = (Ret tt, extend w evs) ->
  bind (ValidateMetrics.when c body) k w
  = k tt (extend w (if c then evs else [])).
Proof.
  intros Hbody. unfold ValidateMetrics.when. destruct c.
  - apply bind_run, Hbody.
  - rewrite extend_nil. reflexivity.
Qed.

(** The log of a connected run of [main]: its own lines around the events
    of the four operations, none of which is a verdict or advice line. *)
Lemma metrics_main_log (env : environment) (w : world) :
  connect_ok env (attempts w) = true ->
  exists e1 e2 e3 e4,
    log (snd (ValidateMetrics.main env w))
    = (log w
       ++ [Stdout "COLLABORATIVE FILTERING METRICS VALIDATION" [];
           Stdout "============================================================" [];
           Stdout "   Timestamp: {}" [];
           Connect (attempts w)]
       ++ e1
       ++ metrics_warning (recorded_count env "orders")
       ++ e2 ++ e3 ++ e4
       ++ metrics_summary (collaborative_result env)
            (reported_count (run_high_value_pairs env))
            (reported_count (run_cross_region env))
       ++ [Close (attempts w)])%list /\
    forallb operation_line (e1 ++ e2 ++ e3 ++ e4) = true.
Proof.
  intros Hc. unfold ValidateMetrics.main.
  repeat (rewrite bind_print_run; cbv beta).
  match goal with
  | |- context [bind (ValidateMetrics.get_db_connection env) _ ?w0] =>
      rewrite (bind_run _ _ w0 _ _ (metrics_connection_ok env w0 Hc))
  end.
  cbv beta iota. cbn [attempts extend log].
  unfold try_finally, try_except.
  match goal with
  | |- context [bind (ValidateMetrics.validate_database_structure env ?h) _ ?w0] =>
      destruct (validate_database_structure_result env h w0)
        as (e1 & Hrun1 & Hok1);
      rewrite (bind_run _ _ w0 _ _ Hrun1)
  end.
  cbv beta zeta.
  change (dict_get
            (fold_left (fun d t => dict_set d t (recorded_count env t))
                       ValidateMetrics.required_tables []) "orders" 0)
    with (recorded_count env "orders").
  match goal with
  | |- context [bind (ValidateMetrics.when ?c ?body) _ ?w0] =>
      rewrite (bind_when_run c body _ w0
                 [Stdout "WARNING: Only {:,} orders found"
                         [VInt (recorded_count env "orders")];
                  Stdout "   Consider loading more sample data for better metrics" []])
        by (step; unfold extend; cbn; reassoc; reflexivity)
  end.
  cbv beta.
  match goal with
  | |- context [bind (ValidateMetrics.validate_collaborative_metrics env ?h)
                     _ ?w0] =>
      destruct (validate_collaborative_metrics_result env h w0)
        as (e2 & Hrun2 & Hok2);
      rewrite (bind_run _ _ w0 _ _ Hrun2)
  end.
  cbv beta.
  match goal with
  | |- context [bind (ValidateMetrics.validate_high_value_pairs env ?h) _ ?w0] =>
      destruct (validate_high_value_pairs_result env h w0)
        as (e3 & Hrun3 & Hok3);
      rewrite (bind_run _ _ w0 _ _ Hrun3)
  end.
  cbv beta.
  match goal with
  | |- context [bind (ValidateMetrics.validate_cross_region_products env ?h)
                     _ ?w0] =>
      destruct (validate_cross_region_products_result env h w0)
        as (e4 & Hrun4 & Hok4);
      rewrite (bind_run _ _ w0 _ _ Hrun4)
  end.
  cbv beta.
  exists e1, e2, e3, e4. split.
  - clear Hrun1 Hrun2 Hrun3 Hrun4 Hok1 Hok2 Hok3 Hok4 Hc.
    unfold metrics_warning, metrics_summary.
    generalize (recorded_count env "orders") as orders_count.
    generalize (reported_count (run_high_value_pairs env)) as high_value_pairs.
    generalize (reported_count (run_cross_region env)) as cross_region_products.
    generalize (collaborative_result env) as metrics.
    intros metrics cross_region_products high_value_pairs orders_count.
    destruct metrics as [m|];
      [destruct (ValidateMetrics.active_customer_pairs m <? 100)|];
      destruct (orders_count <? 100);
      destruct (high_value_pairs <? 50);
      destruct (cross_region_products <? 20);
      lazy -[app]; reassoc; reflexivity.
  - rewrite !forallb_app, Hok1, Hok2, Hok3, Hok4. reflexivity.
Qed.

Lemma metrics_script_log (env : environment) :
  snd (ValidateMetrics.script env) = snd (ValidateMetrics.main env initial_world).
Proof.
  unfold ValidateMetrics.script.
  destruct (ValidateMetrics.main env initial_world); reflexivity.
Qed.

Lemma operation_lines_exclude (evs : list event) (fmt : string)
    (args : list pyval) :
  forallb operation_line evs = true ->
  In fmt metrics_main_formats ->
  ~ In (Stdout fmt args) evs.
Proof.
  intros Hok Hfmt Hin. rewrite forallb_forall in Hok.
  apply Hok in Hin. cbn [operation_line] in Hin.
  apply negb_true_iff in Hin.
  assert (Ht : existsb (String.eqb fmt) metrics_main_formats = true).
  { apply existsb_exists. exists fmt. split; [exact Hfmt | apply String.eqb_refl]. }
  congruence.
Qed.

(** Membership of a verdict or advice line in the log of a connected run
    is membership in [main]'s own lines. *)
Lemma metrics_main_line (env : environment) (fmt : string)
    (args : list pyval) :
  connect_ok env 0%nat = true ->
  In fmt metrics_main_formats ->
  (In (Stdout fmt args) (log (snd (ValidateMetrics.script env))) <->
   In (Stdout fmt args)
      (metrics_warning (recorded_count env "orders")
       ++ metrics_summary (collaborative_result env)
            (reported_count (run_high_value_pairs env))
            (reported_count (run_cross_region env)))).
Proof.
  intros Hc Hfmt. rewrite metrics_script_log.
  destruct (metrics_main_log env initial_world Hc)
    as (e1 & e2 & e3 & e4 & Hlog & Hok).
  rewrite Hlog. cbn [log initial_world attempts].
  rewrite !forallb_app in Hok.
  apply andb_true_iff in Hok. destruct Hok as [Hok1 Hok].
  apply andb_true_iff in Hok. destruct Hok as [Hok2 Hok].
  apply andb_true_iff in Hok. destruct Hok as [Hok3 Hok4].
  pose proof (operation_lines_exclude e1 fmt args Hok1 Hfmt) as H1.
  pose proof (operation_lines_exclude e2 fmt args Hok2 Hfmt) as H2.
  pose proof (operation_lines_exclude e3 fmt args Hok3 Hfmt) as H3.
  pose proof (operation_lines_exclude e4 fmt args Hok4 Hfmt) as H4.
  assert (Hhead : forall f, In f metrics_main_formats ->
            ~ In (Stdout f args)
                 [Stdout "COLLABORATIVE FILTERING METRICS VALIDATION" [];
                  Stdout "============================================================" [];
                  Stdout "   Timestamp: {}" [];
                  Connect 0%nat]).
  { intros f Hf Hin. cbn in Hf, Hin.
    repeat (destruct Hf as [<-|Hf];
            [intuition discriminate|]). exact Hf. }
  specialize (Hhead fmt Hfmt).
  repeat rewrite in_app_iff. cbn [app In] in *.
  intuition discriminate.
Qed.

(** A connected run warns about thin data exactly when fewer than 100
    orders were counted, and names that count; a failed count of [orders]
    is recorded as -1, so the warning then reads -1 orders. *)
Theorem low_data_warning (env : environment) (n : Z) :
  connect_ok env 0%nat = true ->
  (In (Stdout "WARNING: Only {:,} orders found" [VInt n])
      (log (snd (ValidateMetrics.script env))) <->
   n = recorded_count env "orders" /\ n < 100).
Proof.
  intros Hc. rewrite (metrics_main_line env _ _ Hc) by (cbn; tauto).
  unfold metrics_warning, metrics_summary.
  destruct (Z.ltb_spec (recorded_count env "orders") 100) as [Hlt|Hge];
    destruct (collaborative_result env) as [m|];
    repeat match goal with
           | |- context [if ?c then _ else _] => destruct c
           end;
    cbn; split;
    try (intros [H|H]; [inversion H; subst; split; [reflexivity | assumption]
                       | intuition discriminate]);
    try (intros [-> H]; first [left; reflexivity | lia]);
    try (intros H; intuition discriminate).
Qed.

Lemma low_data_warning_witness :
  In (Stdout "WARNING: Only {:,} orders found" [VInt (-1)])
     (log (snd (ValidateMetrics.script Samples.env_missing_tables))).
Proof.
  apply (low_data_warning Samples.env_missing_tables (-1)).
  - reflexivity.
  - split; [reflexivity | lia].
Defined.







(* ===================================================================== *)
(** ** The rows of the geographic query *)
(* ===================================================================== *)

Lemma insert_desc_perm (r : city_row) (l : list city_row) :
  Permutation (Sql.insert_desc r l) (r :: l).
Proof.
  induction l as [|x rest IH]; cbn; [apply Permutation_refl|].
  destruct (city_customers r <? city_customers x).
  - eapply perm_trans; [apply perm_skip, IH | apply perm_swap].
  - apply Permutation_refl.
Qed.

Lemma order_by_perm (l : list city_row) :
  Permutation (Sql.order_by_customer_count_desc l) l.
Proof.
  induction l as [|x rest IH]; cbn; [apply perm_nil|].
  eapply perm_trans; [apply insert_desc_perm | apply perm_skip, IH].
Qed.

Lemma insert_desc_sorted (r : city_row) (l : list city_row) :
  StronglySorted ranked_before l ->
  StronglySorted ranked_before (Sql.insert_desc r l).
Proof.
  intros Hs. induction Hs as [|x rest Hs IH Hx]; cbn.
  - apply SSorted_cons; [apply SSorted_nil | apply Forall_nil].
  - destruct (Z.ltb_spec (city_customers r) (city_customers x)) as [Hlt|Hge].
    + apply SSorted_cons; [exact IH|].
      apply (Permutation_Forall (Permutation_sym (insert_desc_perm r rest))).
      apply Forall_cons; [unfold ranked_before; lia | exact Hx].
    + apply SSorted_cons; [apply SSorted_cons; assumption|].
      apply Forall_cons; [exact Hge|].
      eapply Forall_impl; [|exact Hx].
      unfold ranked_before. intros y Hy. lia.
Qed.

Lemma order_by_sorted (l : list city_row) :
  StronglySorted ranked_before (Sql.order_by_customer_count_desc l).
Proof.
  induction l as [|x rest IH]; cbn;
    [apply SSorted_nil | apply insert_desc_sorted, IH].
Qed.

Lemma Forall_firstn_of {A} (P : A -> Prop) (n : nat) (l : list A) :
  Forall P l -> Forall P (firstn n l).
Proof.
  intros H. rewrite <- (firstn_skipn n l) in H.
  apply Forall_app in H. tauto.
Qed.

Lemma NoDup_firstn_of {A} (n : nat) (l : list A) :
  NoDup l -> NoDup (firstn n l).
Proof.
  intros H. rewrite <- (firstn_skipn n l) in H.
  apply NoDup_app_remove_r in H. exact H.
Qed.

Lemma firstn_sorted {A} (R : A -> A -> Prop) (n : nat) (l : list A) :
  StronglySorted R l -> StronglySorted R (firstn n l).
Proof.
  intros Hs. revert n. induction Hs as [|x rest Hs IH Hx]; intros [|n]; cbn;
    try apply SSorted_nil.
  apply SSorted_cons; [apply IH | apply Forall_firstn_of, Hx].
Qed.

Lemma non_null_length {A} (l : list (option A)) :
  (List.length (Sql.non_null l) <= List.length l)%nat.
Proof.
  unfold Sql.non_null. induction l as [|[x|] rest IH]; cbn in *; lia.
Qed.

Lemma count_distinct_bounds (l : list (option Z)) :
  0 <= Sql.count_distinct l <= Z.of_nat (List.length l).
Proof.
  unfold Sql.count_distinct. split; [lia|].
  apply Nat2Z.inj_le.
  transitivity (List.length (Sql.non_null l)); [|apply non_null_length].
  apply NoDup_incl_length; [apply NoDup_nodup|].
  intros x Hx. apply nodup_In in Hx. exact Hx.
Qed.

Lemma in_non_null {A} (l : list (option A)) (x : A) :
  In x (Sql.non_null l) <-> In (Some x) l.
Proof.
  unfold Sql.non_null. rewrite in_flat_map. split.
  - intros [[y|] [Hin Hy]]; cbn in Hy; [|contradiction].
    destruct Hy as [->|[]]. exact Hin.
  - intros Hin. exists (Some x). split; [exact Hin | left; reflexivity].
Qed.

(** The groups of the geographic query: one per city of a located order. *)
Lemma city_groups_names (current_date : Z) (orders : list Sql.order) :
  map city_name (Sql.city_groups current_date orders)
  = nodup string_dec
      (Sql.non_null (map Sql.customer_city
                         (filter (located current_date) orders))).
Proof.
  unfold Sql.city_groups. rewrite map_map. cbn. apply map_id.
Qed.

Lemma city_groups_rows (current_date : Z) (orders : list Sql.order) :
  Forall (fun r => city_name r <> "" /\
                   1 <= city_orders r /\
                   0 <= city_customers r <= city_orders r)
         (Sql.city_groups current_date orders).
Proof.
  unfold Sql.city_groups.
  fold (located current_date).
  set (rows := filter (located current_date) orders).
  apply Forall_forall. intros r Hr. apply in_map_iff in Hr.
  destruct Hr as [c [<- Hc]]. cbn.
  apply nodup_In, in_non_null, in_map_iff in Hc.
  destruct Hc as [o [Hcity Ho]].
  assert (Hloc : located current_date o = true).
  { unfold rows in Ho. apply filter_In in Ho. tauto. }
  split.
  - unfold located, Sql.has_city in Hloc. rewrite Hcity in Hloc.
    apply andb_true_iff in Hloc. destruct Hloc as [_ Hne].
    apply negb_true_iff in Hne. intros ->. discriminate.
  - assert (Hin : In o (filter (Sql.in_city c) rows)).
    { apply filter_In. split; [exact Ho|].
      unfold Sql.in_city. rewrite Hcity. apply String.eqb_refl. }
    pose proof (count_distinct_bounds
                  (map Sql.unified_customer_id (filter (Sql.in_city c) rows)))
      as Hb.
    rewrite length_map in Hb.
    destruct (filter (Sql.in_city c) rows) as [|x rest]; [contradiction|].
    cbn [List.length] in *. lia.
Qed.

(** The geographic query returns at most 10 rows, ranked by descending
    customer count, one per city; every city has a non-empty name, at
    least one order, and no more distinct customers than orders. *)
Theorem geographic_query_rows (current_date : Z) (orders : list Sql.order) :
  let rows := Sql.geographic_query current_date orders in
  (List.length rows <= 10)%nat /\
  StronglySorted ranked_before rows /\
  NoDup (map city_name rows) /\
  Forall (fun r => city_name r <> "" /\
                   1 <= city_orders r /\
                   0 <= city_customers r <= city_orders r) rows.
Proof.
  cbv zeta. unfold Sql.geographic_query.
  split; [apply firstn_le_length|].
  split; [apply firstn_sorted, order_by_sorted|].
  split.
  - rewrite <- firstn_map. apply NoDup_firstn_of.
    apply (Permutation_NoDup
             (Permutation_sym (Permutation_map city_name (order_by_perm _)))).
    rewrite city_groups_names. apply NoDup_nodup.
  - apply Forall_firstn_of.
    apply (Permutation_Forall (Permutation_sym (order_by_perm _))).
    apply city_groups_rows.
Qed.

Lemma count_distinct_positive (l : list (option Z)) (c : Z) :
  In (Some c) l -> 1 <= Sql.count_distinct l.
Proof.
  intros Hin. unfold Sql.count_distinct.
  apply in_non_null, (nodup_In Z.eq_dec) in Hin.
  destruct (nodup Z.eq_dec (Sql.non_null l)); [contradiction|].
  cbn [List.length]. lia.
Qed.

Lemma city_groups_customers (current_date : Z) (orders : list Sql.order) :
  (forall o, In o orders -> located current_date o = true ->
             Sql.unified_customer_id o <> None) ->
  Forall (fun r => 1 <= city_customers r)
         (Sql.city_groups current_date orders).
Proof.
  intros Hcust. unfold Sql.city_groups.
  fold (located current_date).
  set (rows := filter (located current_date) orders).
  apply Forall_forall. intros r Hr. apply in_map_iff in Hr.
  destruct Hr as [c [<- Hc]]. cbn.
  apply nodup_In, in_non_null, in_map_iff in Hc.
  destruct Hc as [o [Hcity Ho]].
  assert (Hloc : In o orders /\ located current_date o = true).
  { unfold rows in Ho. apply filter_In in Ho. exact Ho. }
  destruct (Sql.unified_customer_id o) as [customer|] eqn:Hid.
  - apply (count_distinct_positive _ customer).
    apply in_map_iff. exists o. split; [exact Hid|].
    apply filter_In. split; [exact Ho|].
    unfold Sql.in_city. rewrite Hcity. apply String.eqb_refl.
  - exfalso. apply (Hcust o); tauto.
Qed.

Lemma positive_counts_total (rows : list city_row) :
  Forall (fun r => 1 <= city_customers r) rows ->
  rows = [] \/ sumZ (map city_customers rows) <> 0.
Proof.
  intros H. destruct rows as [|r rest]; [left; reflexivity|]. right.
  assert (Hsum : forall l, Forall (fun r => 1 <= city_customers r) l ->
                           0 <= sumZ (map city_customers l)).
  { induction l as [|x l IH]; intros Hl; cbn; [lia|].
    inversion Hl; subst. specialize (IH H3).
    unfold sumZ in IH. lia. }
  inversion H; subst. specialize (Hsum rest H3).
  cbn. unfold sumZ in Hsum. lia.
Qed.

(** When every located order (in the window, with a city) carries a
    customer identifier, every city of the geographic query counts at
    least one customer, and [validate_geographic_distribution] returns the
    rows of the query without dividing by zero. *)
Theorem geographic_report_with_customers
    (env : environment) (w : world) (current_date : Z)
    (orders : list Sql.order) :
  connect_ok env (attempts w) = true ->
  run_geographic env = inr (Sql.geographic_query current_date orders) ->
  (forall o, In o orders -> located current_date o = true ->
             Sql.unified_customer_id o <> None) ->
  Forall (fun r => 1 <= city_customers r)
         (Sql.geographic_query current_date orders) /\
  fst (ValidateCustomerProfiling.validate_geographic_distribution env w)
  = Ret (Sql.geographic_query current_date orders).
Proof.
  intros Hc Hq Hcust.
  assert (Hrows : Forall (fun r => 1 <= city_customers r)
                         (Sql.geographic_query current_date orders)).
  { unfold Sql.geographic_query. apply Forall_firstn_of.
    apply (Permutation_Forall (Permutation_sym (order_by_perm _))).
    apply city_groups_customers, Hcust. }
  split; [exact Hrows|].
  destruct (profiling_geographic_ok env w _ Hc Hq (positive_counts_total _ Hrows))
    as (evs & Hrun & _).
  rewrite Hrun. reflexivity.
Qed.

Lemma geographic_report_with_customers_witness :
  fst (ValidateCustomerProfiling.validate_geographic_distribution
         Samples.env_sample initial_world)
  = Ret (Sql.geographic_query Samples.today Samples.orders).
Proof.
  apply (geographic_report_with_customers Samples.env_sample initial_world
           Samples.today Samples.orders).
  - reflexivity.
  - reflexivity.
  - intros o Hin _. cbn in Hin.
    destruct Hin as [<-|[<-|[<-|[]]]]; discriminate.
Defined.

(* ===================================================================== *)
(** ** The customer report on the rows of its query *)
(* ===================================================================== *)

Lemma count_distinct_all_null (l : list (option Z)) :
  (forall x, In x l -> x = None) -> Sql.count_distinct l = 0.
Proof.
  intros H. unfold Sql.count_distinct.
  assert (Hn : Sql.non_null l = []).
  { induction l as [|x rest IH]; [reflexivity|].
    cbn. rewrite (H x (or_introl eq_refl)). cbn. apply IH.
    intros y Hy. apply H. right. exact Hy. }
  rewrite Hn. reflexivity.
Qed.

(** On the row of the customer-metrics query,
    [validate_customer_profiling] returns exactly when some order of the
    window carries a customer identifier, and its average lifetime value
    is then revenue per customer; when no order of the window does (no
    order at all, or only NULL identifiers) it raises
    [ZeroDivisionError]. *)
Theorem customer_report_needs_a_customer
    (env : environment) (w : world) (current_date : Z)
    (orders : list Sql.order) :
  connect_ok env (attempts w) = true ->
  run_customer_metrics env
    = inr (Sql.customer_metrics_query current_date orders) ->
  ((exists o, In o orders /\ Sql.in_window current_date 30 o = true /\
              Sql.unified_customer_id o <> None) ->
   exists m,
     fst (ValidateCustomerProfiling.validate_customer_profiling env w) = Ret m /\
     1 <= ValidateCustomerProfiling.total_customers m /\
     ValidateCustomerProfiling.avg_lifetime_value m
     = (ValidateCustomerProfiling.total_revenue m
        / inject_Z (ValidateCustomerProfiling.total_customers m))%Q) /\
  ((forall o, In o orders -> Sql.in_window current_date 30 o = true ->
              Sql.unified_customer_id o = None) ->
   fst (ValidateCustomerProfiling.validate_customer_profiling env w)
   = Raise ZeroDivisionError).
Proof.
  intros Hc Hq. rewrite validate_customer_profiling_fst.
  unfold customer_profiling_outcome. rewrite Hc, Hq.
  unfold Sql.customer_metrics_query.
  set (rows := filter (Sql.in_window current_date 30) orders).
  split.
  - intros [o [Hin [Hwin Hid]]].
    assert (Hpos : 1 <= Sql.count_distinct (map Sql.unified_customer_id rows)).
    { destruct (Sql.unified_customer_id o) as [c|] eqn:Ho; [|contradiction].
      apply (count_distinct_positive _ c), in_map_iff.
      exists o. split; [exact Ho|]. apply filter_In. tauto. }
    destruct (Z.eqb_spec (Sql.count_distinct (map Sql.unified_customer_id rows))
                         0) as [Hz|Hnz]; [lia|].
    eexists. split; [reflexivity|]. cbn.
    split; [exact Hpos|].
    assert (Hlt : (0 <? Sql.count_distinct (map Sql.unified_customer_id rows))
                  = true) by (apply Z.ltb_lt; lia).
    rewrite Hlt. reflexivity.
  - intros Hnone.
    rewrite count_distinct_all_null; [reflexivity|].
    intros x Hx. apply in_map_iff in Hx. destruct Hx as [o [<- Ho]].
    apply filter_In in Ho. apply Hnone; tauto.
Qed.

Lemma customer_report_needs_a_customer_witness :
  (exists m,
     fst (ValidateCustomerProfiling.validate_customer_profiling
            Samples.env_sample initial_world) = Ret m /\
     1 <= ValidateCustomerProfiling.total_customers m) /\
  fst (ValidateCustomerProfiling.validate_customer_profiling
         Samples.env_without_customer initial_world)
  = Raise ZeroDivisionError.
Proof.
  split.
  - destruct (customer_report_needs_a_customer Samples.env_sample initial_world
                Samples.today Samples.orders eq_refl eq_refl) as [Hsome _].
    destruct Hsome as (m & Hrun & Hpos & _).
    + exists (Samples.mk_order 1 (Some 1) 100 (Some "Lahore")).
      split; [left; reflexivity|]. split; [reflexivity | discriminate].
    + exists m. split; [exact Hrun | exact Hpos].
  - destruct (customer_report_needs_a_customer Samples.env_without_customer
                initial_world Samples.today Samples.orders_without_customer
                eq_refl eq_refl) as [_ Hnone].
    apply Hnone. intros o Hin _. cbn in Hin.
    destruct Hin as [<-|[<-|[]]]; reflexivity.
Defined.

(* ===================================================================== *)
(** ** The rows of customer_products and the number of possible pairs *)
(* ===================================================================== *)

Section Counting.

Context {A : Type} (eq_dec : forall x y : A, {x = y} + {x <> y}).

Lemma count_of_cons (x : A) (l : list A) (k : A) :
  Z.of_nat (count_occ eq_dec (x :: l) k)
  = Z.of_nat (count_occ eq_dec l k) + (if eq_dec x k then 1 else 0).
Proof.
  cbn [count_occ]. destruct (eq_dec x k); lia.
Qed.

Lemma indicator_sum (x : A) (ks : list A) :
  NoDup ks ->
  sumZ (map (fun k => if eq_dec x k then 1 else 0) ks)
  = if in_dec eq_dec x ks then 1 else 0.
Proof.
  intros Hnd. induction Hnd as [|k ks Hk Hnd IH]; [reflexivity|].
  cbn [map sumZ fold_right]. fold (sumZ (map (fun k => if eq_dec x k then 1 else 0) ks)).
  rewrite IH.
  destruct (eq_dec x k) as [->|Hne].
  - destruct (in_dec eq_dec k ks) as [Hin|_]; [contradiction|].
    destruct (in_dec eq_dec k (k :: ks)) as [_|Hout]; [reflexivity|].
    exfalso. apply Hout. left. reflexivity.
  - destruct (in_dec eq_dec x ks) as [Hin|Hout];
      destruct (in_dec eq_dec x (k :: ks)) as [Hin'|Hout']; try reflexivity.
    + exfalso. apply Hout'. right. exact Hin.
    + exfalso. destruct Hin' as [->|Hin']; [apply Hne; reflexivity
                                            | apply Hout; exact Hin'].
Qed.

Lemma sum_of_sums (f g : A -> Z) (ks : list A) :
  sumZ (map (fun k => f k + g k) ks) = sumZ (map f ks) + sumZ (map g ks).
Proof.
  induction ks as [|k ks IH]; [reflexivity|].
  cbn [map sumZ fold_right].
  fold (sumZ (map (fun k => f k + g k) ks)).
  fold (sumZ (map f ks)). fold (sumZ (map g ks)). lia.
Qed.

(** Counting a list group by group counts every element once. *)
Lemma group_counts_total (l ks : list A) :
  NoDup ks -> incl l ks ->
  sumZ (map (fun k => Z.of_nat (count_occ eq_dec l k)) ks)
  = Z.of_nat (List.length l).
Proof.
  intros Hnd. induction l as [|x l IH]; intros Hincl.
  - cbn [count_occ List.length]. induction ks as [|k ks IHk]; [reflexivity|].
    cbn [map sumZ fold_right] in *. inversion Hnd; subst.
    fold (sumZ (map (fun _ : A => Z.of_nat 0) ks)).
    rewrite IHk; [reflexivity | assumption | intros y []].
  - rewrite (map_ext _ _ (count_of_cons x l)).
    rewrite sum_of_sums, indicator_sum by exact Hnd.
    rewrite IH by (intros y Hy; apply Hincl; right; exact Hy).
    destruct (in_dec eq_dec x ks) as [_|Hout].
    + cbn [List.length]. lia.
    + exfalso. apply Hout, Hincl. left. reflexivity.
Qed.

End Counting.

(** [customer_products] has one row per (customer, product) of the joined
    rows, each with a purchase count of at least 1, and its purchase counts
    add up to the number of joined rows: no order line of the window is
    lost or counted twice. *)
Theorem customer_products_counts (current_date : Z)
    (orders : list Sql.order) (order_items : list Sql.order_item) :
  let cps := Sql.customer_products current_date orders order_items in
  let joined := purchase_rows current_date orders order_items in
  NoDup (map fst cps) /\
  (forall k, In k (map fst cps) <-> In k joined) /\
  Forall (fun r => 1 <= snd r) cps /\
  sumZ (map snd cps) = Z.of_nat (List.length joined).
Proof.
  cbv zeta. unfold Sql.customer_products.
  fold (purchase_rows current_date orders order_items).
  set (joined := purchase_rows current_date orders order_items).
  rewrite !map_map. cbn [fst snd]. rewrite map_id.
  split; [apply NoDup_nodup|].
  split; [intros k; apply nodup_In|].
  split.
  - apply Forall_forall. intros r Hr. apply in_map_iff in Hr.
    destruct Hr as [k [<- Hk]]. cbn. apply nodup_In in Hk.
    apply (count_occ_In Sql.customer_product_eq_dec) in Hk. lia.
  - apply group_counts_total; [apply NoDup_nodup|].
    intros k Hk. apply nodup_In. exact Hk.
Qed.

(** Distinct ordered pairs [a < b] over [n] elements: at most
    [n * (n - 1) / 2]. *)
Lemma ordered_pairs_bound (users : list Z) (pairs : list (Z * Z)) :
  NoDup users -> NoDup pairs ->
  (forall a b, In (a, b) pairs -> a < b /\ In a users /\ In b users) ->
  (2 * List.length pairs + List.length users
   <= List.length users * List.length users)%nat.
Proof.
  intros Hu Hp Hin.
  set (swap := fun p : Z * Z => (snd p, fst p)).
  set (diag := fun u : Z => (u, u)).
  assert (Hnd : NoDup (pairs ++ map swap pairs ++ map diag users)).
  { apply NoDup_app; [exact Hp | apply NoDup_app |].
    - apply Finite.Injective_map_NoDup_in; [|exact Hp].
      intros [a b] [c d] _ _ H. unfold swap in H. cbn in H.
      inversion H. reflexivity.
    - apply Finite.Injective_map_NoDup_in; [|exact Hu].
      intros x y _ _ H. unfold diag in H. inversion H. reflexivity.
    - intros [a b] H1 H2. apply in_map_iff in H1, H2.
      destruct H1 as [[c d] [H1 Hcd]]. destruct H2 as [u [H2 _]].
      unfold swap, diag in *. cbn in H1. inversion H1; inversion H2; subst.
      apply Hin in Hcd. lia.
    - intros [a b] H1 H2. apply in_app_iff in H2. destruct H2 as [H2|H2];
        apply in_map_iff in H2.
      + destruct H2 as [[c d] [H2 Hcd]]. unfold swap in H2. cbn in H2.
        inversion H2; subst. apply Hin in H1. apply Hin in Hcd. lia.
      + destruct H2 as [u [H2 _]]. unfold diag in H2. inversion H2; subst.
        apply Hin in H1. lia. }
  assert (Hincl : incl (pairs ++ map swap pairs ++ map diag users)
                       (list_prod users users)).
  { intros [a b] H. apply in_prod_iff.
    apply in_app_iff in H. destruct H as [H|H].
    - apply Hin in H. tauto.
    - apply in_app_iff in H. destruct H as [H|H]; apply in_map_iff in H.
      + destruct H as [[c d] [H Hcd]]. unfold swap in H. cbn in H.
        inversion H; subst. apply Hin in Hcd. tauto.
      + destruct H as [u [H Hu']]. unfold diag in H. inversion H; subst.
        tauto. }
  pose proof (NoDup_incl_length Hnd Hincl) as Hlen.
  rewrite !length_app, !length_map, length_prod in Hlen. lia.
Qed.

Lemma purchased_user (cps : list (Sql.customer_product * Z)) (c p : Z) :
  purchased cps c p ->
  In c (nodup Z.eq_dec (Sql.non_null (map (fun r => fst (fst r)) cps))).
Proof.
  intros [k Hk]. apply nodup_In, in_non_null, in_map_iff.
  exists ((Some c, Some p), k). split; [reflexivity | exact Hk].
Qed.

Lemma customer_pairs_bound (cps : list (Sql.customer_product * Z)) :
  let users := Sql.count_distinct (map (fun r => fst (fst r)) cps) in
  2 * Z.of_nat (List.length (Sql.customer_pairs cps)) <= users * (users - 1).
Proof.
  cbv zeta. unfold Sql.count_distinct.
  set (users := nodup Z.eq_dec (Sql.non_null (map (fun r => fst (fst r)) cps))).
  assert (H : (2 * List.length (map fst (Sql.customer_pairs cps))
               + List.length users
               <= List.length users * List.length users)%nat).
  { apply ordered_pairs_bound.
    - apply NoDup_nodup.
    - apply customer_pairs_keys_distinct.
    - intros a b Hab. apply in_map_iff in Hab.
      destruct Hab as [[[a' b'] n] [Heq Hab]]. cbn in Heq.
      inversion Heq; subst.
      destruct (customer_pairs_row cps a b n Hab) as (_ & _ & p & Hp).
      apply shared_rows_spec in Hp. destruct Hp as (Hlt & Ha & Hb).
      split; [exact Hlt|].
      split; eapply purchased_user; eassumption. }
  rewrite length_map in H. nia.
Qed.

Lemma Qmin_below (q : Q) : (q <= 1)%Q -> Qmin q 1 = q.
Proof.
  intros H. apply Qle_alt in H. unfold Qmin, GenericMinMax.gmin.
  destruct (q ?= 1)%Q eqn:E;
    [reflexivity | reflexivity | exfalso; apply H; exact E].
Qed.

(** On the row of the collaborative query the active pairs never exceed
    the possible pairs, [2 * active_customer_pairs <=
    total_users * (total_users - 1)], so the clipping [min(..., 1.0)] of
    the coverage never applies: the coverage is the plain ratio. *)
Theorem active_pairs_within_possible (current_date : Z)
    (orders : list Sql.order) (order_items : list Sql.order_item) :
  let row := Sql.collaborative_query current_date orders order_items in
  let active_pairs := ValidateMetrics.or_zero (r_active_customer_pairs row) in
  let total_users := ValidateMetrics.or_zero (r_total_users row) in
  let max_possible_pairs := ValidateMetrics.max_possible_pairs_of total_users in
  2 * active_pairs <= total_users * (total_users - 1) /\
  (inject_Z active_pairs <= max_possible_pairs)%Q /\
  ValidateMetrics.recommendation_coverage_of active_pairs max_possible_pairs
  = inr (inject_Z active_pairs / max_possible_pairs)%Q.
Proof.
  cbv zeta. unfold Sql.collaborative_query. cbn [r_active_customer_pairs
    r_total_users ValidateMetrics.or_zero Sql.coalesce].
  set (cps := Sql.customer_products current_date orders order_items).
  pose proof (customer_pairs_bound cps) as Hb. cbv zeta in Hb.
  set (users := Sql.count_distinct (map (fun r => fst (fst r)) cps)) in *.
  set (pairs := Z.of_nat (List.length (Sql.customer_pairs cps))) in *.
  assert (Hu : 0 <= users) by (unfold users, Sql.count_distinct; lia).
  assert (Hle : (inject_Z pairs <= ValidateMetrics.max_possible_pairs_of users)%Q).
  { unfold ValidateMetrics.max_possible_pairs_of.
    destruct (Z.ltb_spec 1 users) as [Hgt|Hle].
    - apply Qle_shift_div_l; [reflexivity|].
      unfold Qle. cbn. lia.
    - assert (Hz : users * (users - 1) <= 0) by nia.
      unfold Qle. cbn. lia. }
  split; [exact Hb|]. split; [exact Hle|].
  rewrite recommendation_coverage_divides. f_equal.
  apply Qmin_below.
  apply Qle_shift_div_r; [apply max_possible_pairs_positive|].
  rewrite Qmult_1_l. exact Hle.
Qed.

(* ===================================================================== *)
(** ** validate_metrics.py: failures that reach main *)
(* ===================================================================== *)

(** Runs the operation at the head of the goal, which always returns. *)
Ltac advance :=
  match goal with
  | |- context [bind ?c ?k ?w0] =>
      let H := fresh "Hr" in
      let Hrun := fresh "Hrun" in
      eassert (H : returning c _ _)
        by (first [ apply validate_database_structure_returning
                  | apply validate_collaborative_metrics_returning
                  | apply validate_high_value_pairs_returning
                  | apply validate_cross_region_products_returning
                  | apply returning_when;
                    eapply returning_weaken; [leaf | auto | reflexivity] ]);
      destruct (H w0) as (? & ? & Hrun & (? & -> & ?) & ?);
      rewrite (bind_run _ _ w0 _ _ Hrun);
      cbv beta zeta; clear H Hrun
  end.

(** [conn.cursor()] raising ends the operation after its two headings. *)
Lemma cursor_fault_raises (env : environment)
    (op : ValidateMetricsCursor.operation) (e : exn) (h : nat) (w : world) :
  let cursor := ValidateMetricsCursor.faulty_cursor (Some (op, e)) in
  match op with
  | ValidateMetricsCursor.Structure =>
      exists evs,
        ValidateMetricsCursor.validate_database_structure cursor env h w
        = (Raise e, extend w evs) /\ connection_events evs = []
  | ValidateMetricsCursor.Collaborative =>
      exists evs,
        ValidateMetricsCursor.validate_collaborative_metrics cursor env h w
        = (Raise e, extend w evs) /\ connection_events evs = []
  | ValidateMetricsCursor.HighValuePairs =>
      exists evs,
        ValidateMetricsCursor.validate_high_value_pairs cursor env h w
        = (Raise e, extend w evs) /\ connection_events evs = []
  | ValidateMetricsCursor.CrossRegion =>
      exists evs,
        ValidateMetricsCursor.validate_cross_region_products cursor env h w
        = (Raise e, extend w evs) /\ connection_events evs = []
  end.
Proof.
  destruct op; cbv zeta;
    eexists; (split; [cbv -[app]; unfold extend; reassoc; reflexivity
                     | reflexivity]).
Qed.

Lemma connection_events_cons (e : event) (l : list event) :
  connection_events (e :: l)
  = if is_connection_event e then e :: connection_events l
    else connection_events l.
Proof. reflexivity. Qed.

(** Ends a run whose operation at the head has just raised. *)
Ltac finish_fault :=
  step; unfold extend; cbn [log attempts];
  eexists; split; [reflexivity|]; split;
  [ repeat first [ rewrite connection_events_app
                 | rewrite connection_events_cons; cbn [is_connection_event] ];
    repeat match goal with
           | H : connection_events _ = _ |- _ => rewrite H; clear H
           end;
    reflexivity
  | repeat apply in_cons;
    apply in_or_app; left; apply in_or_app; right; left; reflexivity ].

(** A run in which [conn.cursor()] raises [e] in operation [op]: the
    operations before it run as usual, [main] catches [e], reports it,
    closes the connection and returns [False]. *)
Lemma metrics_main_cursor_fault (env : environment)
    (op : ValidateMetricsCursor.operation) (e : exn) :
  connect_ok env 0%nat = true ->
  exists evs,
    ValidateMetricsCursor.main
      (ValidateMetricsCursor.faulty_cursor (Some (op, e))) env initial_world
    = (Ret false, {| attempts := 1; log := evs |}) /\
    connection_events evs = (trace_before_fault op ++ [Close 0%nat])%list /\
    In (Stdout "Validation failed: {}" [VExn e]) evs.
Proof.
  intros Hc. unfold ValidateMetricsCursor.main.
  repeat (rewrite bind_print_run; cbv beta).
  match goal with
  | |- context [bind (ValidateMetrics.get_db_connection env) _ ?w0] =>
      rewrite (bind_run _ _ w0 _ _ (metrics_connection_ok env w0 Hc))
  end.
  cbv beta iota. cbn [attempts extend log initial_world app].
  unfold try_finally, try_except.
  destruct op.
  - match goal with
    | |- context [bind ?c ?k ?w0] =>
        destruct (cursor_fault_raises env ValidateMetricsCursor.Structure e
                    0%nat w0) as (evs & Hrun & Ht);
        rewrite (bind_raise _ _ w0 _ _ Hrun)
    end.
    finish_fault.
  - advance.
    advance.
    match goal with
    | |- context [bind ?c ?k ?w0] =>
        destruct (cursor_fault_raises env ValidateMetricsCursor.Collaborative e
                    0%nat w0) as (evs & Hrun & Ht);
        rewrite (bind_raise _ _ w0 _ _ Hrun)
    end.
    finish_fault.
  - advance. advance. advance.
    match goal with
    | |- context [bind ?c ?k ?w0] =>
        destruct (cursor_fault_raises env ValidateMetricsCursor.HighValuePairs e
                    0%nat w0) as (evs & Hrun & Ht);
        rewrite (bind_raise _ _ w0 _ _ Hrun)
    end.
    finish_fault.
  - advance. advance. advance. advance.
    match goal with
    | |- context [bind ?c ?k ?w0] =>
        destruct (cursor_fault_raises env ValidateMetricsCursor.CrossRegion e
                    0%nat w0) as (evs & Hrun & Ht);
        rewrite (bind_raise _ _ w0 _ _ Hrun)
    end.
    finish_fault.
Qed.

Lemma metrics_cursor_main_unreachable
    (cursor : ValidateMetricsCursor.operation -> nat -> M unit)
    (env : environment) (w : world) :
  connect_ok env (attempts w) = false ->
  exists evs,
    ValidateMetricsCursor.main cursor env w
    = (Ret false,
       {| attempts := S (attempts w); log := log w ++ evs |}) /\
    connection_events evs = [ConnectFailed].
Proof.
  intros Hc. unfold ValidateMetricsCursor.main.
  repeat (rewrite bind_print_run; cbv beta).
  match goal with
  | |- context [bind (ValidateMetrics.get_db_connection env) _ ?w0] =>
      rewrite (bind_run _ _ w0 _ _ (metrics_connection_failed env w0 Hc))
  end.
  cbv beta iota. step. unfold extend. cbn [attempts log].
  eexists. split; [reassoc; reflexivity|]. reflexivity.
Qed.

Lemma profiling_customer_connect_fails (env : environment) (w : world) :
  connect_ok env (attempts w) = false ->
  ValidateCustomerProfiling.validate_customer_profiling env w
  = (Raise OperationalError,
     {| attempts := S (attempts w);
        log := log w ++
          [Stdout "VALIDATING CUSTOMER PROFILING METRICS" [];
           Stdout "============================================================" [];
           ConnectFailed] |}).
Proof.
  intros Hc.
  unfold ValidateCustomerProfiling.validate_customer_profiling,
    ValidateCustomerProfiling.get_db_connection, psycopg2_connect.
  step. rewrite Hc. cbn. reassoc. reflexivity.
Qed.

Lemma compare_with_frontend_connect_fails (env : environment) (w : world) :
  connect_ok env (attempts w) = false ->
  ValidateCustomerProfiling.compare_with_frontend env w
  = (Raise OperationalError,
     {| attempts := S (attempts w);
        log := log w ++
          [Stdout "COMPARING REAL DATA WITH FRONTEND DISPLAY" [];
           Stdout "============================================================" [];
           Stdout "VALIDATING CUSTOMER PROFILING METRICS" [];
           Stdout "============================================================" [];
           ConnectFailed] |}).
Proof.
  intros Hc. unfold ValidateCustomerProfiling.compare_with_frontend.
  repeat (rewrite bind_print_run; cbv beta).
  match goal with
  | |- context [bind (ValidateCustomerProfiling.validate_customer_profiling env)
                     _ ?w0] =>
      rewrite (bind_raise _ _ w0 _ _
                 (profiling_customer_connect_fails env w0 Hc))
  end.
  unfold extend. cbn [attempts log]. reassoc. reflexivity.
Qed.

Lemma profiling_main_unreachable_run (env : environment) :
  connect_ok env 0%nat = false ->
  ValidateCustomerProfiling.main env initial_world
  = (Ret tt,
     {| attempts := 1;
        log :=
          [Stdout "CUSTOMER PROFILING & GEOGRAPHIC DISTRIBUTION VALIDATION" [];
           Stdout "================================================================================" [];
           Stdout "" [];
           Stdout "COMPARING REAL DATA WITH FRONTEND DISPLAY" [];
           Stdout "============================================================" [];
           Stdout "VALIDATING CUSTOMER PROFILING METRICS" [];
           Stdout "============================================================" [];
           ConnectFailed;
           Stdout "Validation failed: {}" [VExn OperationalError];
           Traceback] |}).
Proof.
  intros Hc. unfold ValidateCustomerProfiling.main.
  repeat (rewrite bind_print_run; cbv beta).
  unfold try_except.
  match goal with
  | |- context [bind (ValidateCustomerProfiling.compare_with_frontend env)
                     _ ?w0] =>
      rewrite (bind_raise _ _ w0 _ _
                 (compare_with_frontend_connect_fails env w0 Hc))
  end.
  reflexivity.
Qed.

(** When the data store cannot be reached, [main] of
    [validate_customer_profiling.py] prints the failure and the traceback
    and returns. *)
Lemma profiling_main_unreachable (env : environment) :
  connect_ok env 0%nat = false ->
  let l := log (snd (ValidateCustomerProfiling.main env initial_world)) in
  connection_events l = [ConnectFailed] /\
  In (Stdout "Validation failed: {}" [VExn OperationalError]) l /\
  In Traceback l.
Proof.
  intros Hc. cbv zeta. rewrite (profiling_main_unreachable_run env Hc).
  cbn [snd log]. split; [reflexivity|].
  split; cbn [In]; auto 20.
Qed.

(** Every run of [main] of [validate_customer_profiling.py] either
    prints a failure with its traceback, or writes the snapshot. *)
Lemma profiling_main_report (env : environment) :
  let l := log (snd (ValidateCustomerProfiling.main env initial_world)) in
  (exists e, In (Stdout "Validation failed: {}" [VExn e]) l /\
             In Traceback l /\ ~ In JsonDump l) \/
  (In JsonDump l /\ ~ In Traceback l).
Proof.
  cbv zeta. unfold ValidateCustomerProfiling.main.
  repeat (rewrite bind_print_run; cbv beta).
  unfold try_except.
  match goal with
  | |- context [bind (ValidateCustomerProfiling.compare_with_frontend env)
                     _ ?w0] =>
      destruct (compare_with_frontend_events env w0) as (evs & Hlog & Hok);
      destruct (ValidateCustomerProfiling.compare_with_frontend env w0)
        as [[v|e] w1] eqn:Hrun;
      [rewrite !(bind_run _ _ w0 _ _ Hrun)
      |rewrite !(bind_raise _ _ w0 _ _ Hrun)]
  end; cbn [snd log extend initial_world attempts app] in Hlog;
    apply operation_events_exclude in Hok; destruct Hok as [Hj Ht].
  - unfold ValidateCustomerProfiling.save_results. step.
    destruct (file_writable env); cbn; rewrite Hlog; [right | left; exists OSError];
      repeat rewrite in_app_iff; cbn; intuition (try discriminate).
  - step. rewrite Hlog. left. exists e.
    repeat rewrite in_app_iff; cbn; intuition (try discriminate).
Qed.

(** The run of [main] of [validate_metrics.py] under a fault of
    [conn.cursor()]: [main] returns, with [True] exactly when the
    connection is made and no call of [conn.cursor()] fails. *)
Lemma metrics_cursor_main_run (env : environment)
    (fault : ValidateMetricsCursor.fault) :
  exists evs,
    ValidateMetricsCursor.main (ValidateMetricsCursor.faulty_cursor fault)
      env initial_world
    = (Ret (match fault with
            | None => connect_ok env 0%nat
            | Some _ => false
            end),
       {| attempts := 1; log := evs |}) /\
    (if connect_ok env 0%nat
     then match fault with
          | None => connection_events evs = metrics_connection_trace
          | Some (op, e) =>
              connection_events evs
              = (trace_before_fault op ++ [Close 0%nat])%list /\
              In (Stdout "Validation failed: {}" [VExn e]) evs
          end
     else connection_events evs = [ConnectFailed]).
Proof.
  destruct (connect_ok env 0%nat) eqn:Hc.
  - destruct fault as [[op e]|].
    + destruct (metrics_main_cursor_fault env op e Hc)
        as (evs & Hrun & Ht & Hin).
      exists evs. split; [exact Hrun|]. split; [exact Ht | exact Hin].
    + change (ValidateMetricsCursor.main
                (ValidateMetricsCursor.faulty_cursor None) env initial_world)
        with (ValidateMetrics.main env initial_world).
      destruct (metrics_main_connected env initial_world Hc)
        as (evs & Hrun & Ht).
      eexists. split; [exact Hrun|].
      cbn [log initial_world app]. exact Ht.
  - destruct (metrics_cursor_main_unreachable
                (ValidateMetricsCursor.faulty_cursor fault) env
                initial_world Hc) as (evs & Hrun & Ht).
    eexists. split.
    + rewrite Hrun. destruct fault as [[op e]|]; reflexivity.
    + cbn [log initial_world app]. exact Ht.
Qed.

(** C3, as the code has it.  [validate_metrics.py] exits with status 0
    when the run succeeds, that is when [main] returns [True]: the
    connection is made and no exception leaves an operation (a failing
    query is handled inside its operation and does not count).  Every
    other run exits 1: a connection failure, after which no query is sent;
    and [conn.cursor()] raising in an operation, which leaves the
    operation, reaches the handler of [main] and is reported, the
    connection is closed and the later queries are not sent.
    [validate_customer_profiling.py] catches every exception in [main],
    prints the failure and its traceback, and exits 0 in every case, a
    connection failure included. *)
Theorem exit_statuses (env : environment)
    (fault : ValidateMetricsCursor.fault) :
  let success :=
    match fault with None => connect_ok env 0%nat | Some _ => false end in
  let run := ValidateMetricsCursor.script fault env in
  let l := log (snd run) in
  let profiling := ValidateCustomerProfiling.script env in
  ValidateMetricsCursor.script None env = ValidateMetrics.script env /\
  fst (ValidateMetricsCursor.main (ValidateMetricsCursor.faulty_cursor fault)
         env initial_world) = Ret success /\
  fst run = (if success then 0 else 1) /\
  (if connect_ok env 0%nat
   then match fault with
        | None => connection_events l = metrics_connection_trace
        | Some (op, e) =>
            connection_events l
            = (trace_before_fault op ++ [Close 0%nat])%list /\
            In (Stdout "Validation failed: {}" [VExn e]) l
        end
   else connection_events l = [ConnectFailed]) /\
  fst profiling = 0 /\
  ((exists e, In (Stdout "Validation failed: {}" [VExn e])
                 (log (snd profiling)) /\
              In Traceback (log (snd profiling)) /\
              ~ In JsonDump (log (snd profiling))) \/
   (In JsonDump (log (snd profiling)) /\
    ~ In Traceback (log (snd profiling)))) /\
  (connect_ok env 0%nat = false ->
   connection_events (log (snd profiling)) = [ConnectFailed] /\
   In (Stdout "Validation failed: {}" [VExn OperationalError])
      (log (snd profiling)) /\
   In Traceback (log (snd profiling))).
Proof.
  cbv zeta. split; [reflexivity|].
  rewrite profiling_script_log.
  unfold ValidateMetricsCursor.script.
  destruct (metrics_cursor_main_run env fault) as (evs & Hrun & Ht).
  rewrite Hrun. cbn [fst snd log exit_status].
  split; [reflexivity|]. split; [reflexivity|]. split; [exact Ht|].
  split; [apply profiling_script_status|].
  split; [apply profiling_main_report|].
  apply profiling_main_unreachable.
Qed.

Lemma exit_statuses_witness :
  fst (ValidateMetricsCursor.script
         (Some (ValidateMetricsCursor.HighValuePairs, OperationalError))
         Samples.env_sample) = 1 /\
  fst (ValidateMetricsCursor.script None Samples.env_sample) = 0 /\
  In Traceback
     (log (snd (ValidateCustomerProfiling.script Samples.env_unreachable))).
Proof.
  pose proof (exit_statuses Samples.env_sample
                (Some (ValidateMetricsCursor.HighValuePairs, OperationalError)))
    as Hfault.
  pose proof (exit_statuses Samples.env_sample None) as Hrun.
  pose proof (exit_statuses Samples.env_unreachable None) as Hdown.
  cbv zeta in Hfault, Hrun, Hdown.
  destruct Hfault as (_ & _ & Hs1 & _).
  destruct Hrun as (_ & _ & Hs0 & _).
  destruct Hdown as (_ & _ & _ & _ & _ & _ & Hp).
  split; [exact Hs1|]. split; [exact Hs0|].
  exact (proj2 (proj2 (Hp eq_refl))).
Defined.

(* ===================================================================== *)
(** ** Failing queries *)
(* ===================================================================== *)











